(** * updated_tune_pbt.ipynb: the notebook's trainable class and driver script

    A shallow embedding of the Python code cells of the notebook:

    - [TrainableForPBT]: the class-API trainable with its callbacks [setup],
      [step], [save_checkpoint], [load_checkpoint] and [reset_config];
    - the top-level script that builds the search space, the scheduler and
      the configuration objects, runs [Tuner(...).fit()] and prints results.

    Python objects are mutable and exceptions leave the mutations made so
    far in place, so every callback is a function from a state to a new
    state and a result ([M]); the state holds the instance ([self]), the
    file system and the log of calls made to the libraries ([trace]).
    The libraries themselves (lightgbm, scikit-learn, json, joblib, ray) are
    not part of the notebook: they are the fields of the classes [Libs] and
    [Ray], and every definition and theorem is parametric in them.  A call
    to lightgbm or scikit-learn returns or raises, as the library decides;
    what the run of the tuner itself does (the trials, the files Ray writes
    under local_dir) is Ray's and is not modelled. *)

From Stdlib Require Import ZArith Ascii String.
From stdpp Require Import gmap strings list pretty.

Local Open Scope Z_scope.

(** ** Exceptions and the state-and-exception monad *)

Inductive exn :=
| TypeError                      (* unsupported operand, not subscriptable,
                                    a keyword argument given twice *)
| ValueError                     (* an argument a library refuses *)
| KeyError (key : string)        (* d[key] on a dict without the key *)
| OSError (path : string)        (* FileNotFoundError, PermissionError, ... *)
| NameError (name : string)      (* a global name that is not bound *)
| JSONDecodeError                (* json.loads on text that is not JSON *)
| UnpicklingError                (* joblib.load on bytes that are no pickle *)
| OtherError (class : string).   (* any other exception a library raises *)

Inductive result (A : Type) :=
| Ok (a : A)
| Raise (e : exn).
Arguments Ok {A} a.
Arguments Raise {A} e.

Definition M (S A : Type) : Type := S -> S * result A.

Global Instance M_ret {S} : MRet (M S) := fun A a s => (s, Ok a).

Global Instance M_bind {S} : MBind (M S) := fun A B k m s =>
  match m s with
  | (s', Ok a) => k a s'
  | (s', Raise e) => (s', Raise e)
  end.

Definition raise {S A} (e : exn) : M S A := fun s => (s, Raise e).

Definition gets {S A} (f : S -> A) : M S A := fun s => (s, Ok (f s)).

Definition modify {S} (f : S -> S) : M S unit := fun s => (f s, Ok tt).

(** ** Calls to the outside world *)

Inductive open_mode := ReadMode | WriteMode.

(** One constructor per library call or built-in with an effect that the
    notebook's code makes. *)
Inductive event :=
(* made by the methods of the class *)
| CallLGBMRegressor                       (* LGBMRegressor(config as keywords) *)
| CallModelFit (init_model : bool)        (* model.fit(x, y[, init_model=m]) *)
| CallCrossValScore                       (* cross_val_score(...).mean() *)
| CallOpen (path : string) (mode : open_mode)
| CallFileWrite (path : string)           (* f.write(text) *)
| CallFileRead (path : string)            (* f.read() *)
| CallJoblibDump (path : string)          (* dump(model, path) *)
| CallJoblibLoad (path : string)          (* load(path) *)
(* made by the top-level cells *)
| CallPipInstall
| CallLoguniform
| CallRandint
| CallPopulationBasedTraining
| CallTuneConfig
| CallCheckpointConfig
| CallRunConfig
| CallLoadBoston
| CallTrainTestSplit
| CallWithParameters
| CallTuner                               (* Tuner(...) *)
| CallTunerFit                            (* tuner.fit() *)
| CallBestTrial                           (* analysis._experiment_analysis.best_trial *)
| CallGetBestResult                       (* analysis.get_best_result() *)
| CallAsDirectory                         (* checkpoint.as_directory() *)
| CallPrintLine (text : string).          (* print(text) *)

Global Instance open_mode_eq_dec : EqDecision open_mode.
Proof. solve_decision. Defined.

Global Instance event_eq_dec : EqDecision event.
Proof. solve_decision. Defined.

(** Two kinds of calls: those that fit the model, and those that read or
    write files. *)
Definition is_model_fit (e : event) : bool :=
  match e with
  | CallModelFit _ => true
  | _ => false
  end.

Definition is_file_io (e : event) : bool :=
  match e with
  | CallOpen _ _ | CallFileWrite _ | CallFileRead _
  | CallJoblibDump _ | CallJoblibLoad _ => true
  | _ => false
  end.

Definition fits_model (calls : list event) : bool := existsb is_model_fit calls.

Definition does_file_io (calls : list event) : bool := existsb is_file_io calls.

(** How many times the model is fit. *)
Definition count_fits (calls : list event) : nat :=
  length (List.filter is_model_fit calls).

(** The calls that occur in the bodies of the methods. *)
Definition is_method_call (e : event) : bool :=
  match e with
  | CallLGBMRegressor | CallModelFit _ | CallCrossValScore
  | CallOpen _ _ | CallFileWrite _ | CallFileRead _
  | CallJoblibDump _ | CallJoblibLoad _ => true
  | _ => false
  end.

(** ** The environment: files, definitions and the log of calls *)

(** What a [class] statement binds: the bases and the methods of the body,
    each with its parameters, in the order of the source. *)
Record class_def := mkClass {
  class_name : string;
  bases : list string;
  methods : list (string * list string)
}.

(** What the [class] and [def] statements of the top level bind.  The
    names bound by imports and by assignments are not tracked: the values
    assigned flow through the binders of [notebook]. *)
Inductive definition :=
| ClassDef (c : class_def)
| FunctionDef (params : list string).

(** A file is the string of its bytes.  [can_write] says which paths can
    be opened for writing (the parent directory exists, permissions allow
    it, the path is no directory). *)
Record Env := mkEnv {
  files : gmap string string;
  can_write : string -> bool;
  definitions : gmap string definition;
  trace : list event
}.

Definition log (e : event) (en : Env) : Env :=
  mkEnv (files en) (can_write en) (definitions en) (trace en ++ [e]).

Definition store (path content : string) (en : Env) : Env :=
  mkEnv (<[path := content]> (files en)) (can_write en) (definitions en)
        (trace en).

Definition define (name : string) (d : definition) (en : Env) : Env :=
  mkEnv (files en) (can_write en) (<[name := d]> (definitions en)) (trace en).

Definition emit (e : event) : M Env unit := modify (log e).

(** [open(path, "w")]: creates or truncates the file. *)
Definition open_w (path : string) : M Env string :=
  emit (CallOpen path WriteMode) ;;
  ok ← gets (fun en => can_write en path) ;
  if ok : bool then modify (store path "") ;; mret path
  else raise (OSError path).

(** [f.write(text)] on a handle opened by [open_w]. *)
Definition file_write (handle text : string) : M Env unit :=
  emit (CallFileWrite handle) ;;
  old ← gets (fun en => default "" (files en !! handle)) ;
  modify (store handle (old +:+ text)).

(** [open(path)]: the file must exist. *)
Definition open_r (path : string) : M Env string :=
  emit (CallOpen path ReadMode) ;;
  f ← gets (fun en => files en !! path) ;
  match f with
  | Some _ => mret path
  | None => raise (OSError path)
  end.

(** [f.read()] on a handle opened by [open_r]. *)
Definition file_read (handle : string) : M Env string :=
  emit (CallFileRead handle) ;;
  gets (fun en => default "" (files en !! handle)).

(** ** os.path.join (posixpath) for two components *)

Definition sep : string := "/".

Fixpoint endswith_sep (s : string) : bool :=
  match s with
  | EmptyString => false
  | String c EmptyString => bool_decide (c = "/"%char)
  | String _ rest => endswith_sep rest
  end.

Definition startswith_sep (s : string) : bool :=
  match s with
  | String c _ => bool_decide (c = "/"%char)
  | EmptyString => false
  end.

Definition path_join (a b : string) : string :=
  if startswith_sep b then b
  else if bool_decide (a = "") || endswith_sep a then a +:+ b
  else a +:+ sep +:+ b.

(** ** Python values *)

(** The values that the attributes [current_iteration] and
    [current_step_score] can hold: the attributes are untyped, and
    [load_checkpoint] stores in them whatever [json.loads] returns.
    [F] is the type of floats. *)
Unset Elimination Schemes.
Inductive pyval (F : Type) :=
| PNone
| PBool (b : bool)
| PInt (n : Z)
| PFloat (f : F)
| PStr (s : string)
| PList (l : list (pyval F))
| PDict (d : list (string * pyval F)).
Set Elimination Schemes.
Arguments PNone {F}.
Arguments PBool {F} b.
Arguments PInt {F} n.
Arguments PFloat {F} f.
Arguments PStr {F} s.
Arguments PList {F} l.
Arguments PDict {F} d.

(** A dict with string keys, in insertion order. *)
Definition dict (F : Type) : Type := list (string * pyval F).

Fixpoint dict_get {A} (d : list (string * A)) (key : string) : option A :=
  match d with
  | [] => None
  | (k, v) :: rest => if bool_decide (k = key) then Some v else dict_get rest key
  end.

(** ** The libraries the class calls *)

Class Libs := {
  Float : Type;   (* float and numpy.float64 *)
  Data : Type;    (* the numpy arrays x_train and y_train *)
  Model : Type;   (* what an LGBMRegressor object holds *)
  float_add_int : Float -> Z -> Float;   (* f + n *)
  float_eq_int : Float -> Z -> bool;     (* f == n *)
  (* lightgbm: the constructor, which returns an estimator or raises (a
     config that is no set of keyword arguments of the constructor); and
     m.fit(x, y) or m.fit(x, y, init_model=init), which works in place:
     the state of the estimator m after the call, and whether the call
     returned or raised (data it refuses, an init_model never fit) *)
  LGBMRegressor : dict Float -> result Model;
  model_fit : Model -> Data -> Data -> option Model -> Model * result unit;
  (* scikit-learn: cross_val_score(estimator=m, X=x, y=y, scoring='r2',
     cv=5).mean(), which fits clones of m and leaves m alone; it returns
     the mean or raises (fewer rows than folds) *)
  cross_val_score_mean : Model -> Data -> Data -> result Float;
  (* json and joblib: text and bytes out, a value or an error back *)
  json_dumps : pyval Float -> string;
  json_loads : string -> option (pyval Float);
  joblib_dumps : Model -> string;
  joblib_loads : string -> option Model
}.

Section Methods.

Context {L : Libs}.

Local Abbreviation value := (pyval Float).
Local Abbreviation config := (dict Float).

(** *** Python's operators on these values *)

(** [v += k] for an int [k]: defined on numbers only. *)
Definition py_iadd_int (v : value) (k : Z) : result value :=
  match v with
  | PInt n => Ok (PInt (n + k))
  | PBool b => Ok (PInt (Z.b2z b + k))
  | PFloat f => Ok (PFloat (float_add_int f k))
  | PNone | PStr _ | PList _ | PDict _ => Raise TypeError
  end.

(** [v == k] for an int [k]: never raises. *)
Definition py_eq_int (v : value) (k : Z) : bool :=
  match v with
  | PInt n => bool_decide (n = k)
  | PBool b => bool_decide (Z.b2z b = k)
  | PFloat f => float_eq_int f k
  | PNone | PStr _ | PList _ | PDict _ => false
  end.

(** [v[key]] for a str [key]: only a dict can be indexed by a str. *)
Definition py_getitem (v : value) (key : string) : result value :=
  match v with
  | PDict d => match dict_get d key with
               | Some x => Ok x
               | None => Raise (KeyError key)
               end
  | PNone | PBool _ | PInt _ | PFloat _ | PStr _ | PList _ => Raise TypeError
  end.

(** *** The instance and the state of a run *)

Record Trainable := mkTrainable {
  current_config : config;
  x_train : Data;
  y_train : Data;
  model : Model;
  current_iteration : value;
  current_step_score : value
}.

Record State := mkState {
  self : Trainable;
  env : Env
}.

Definition set_current_config (v : config) (t : Trainable) : Trainable :=
  mkTrainable v (x_train t) (y_train t) (model t)
              (current_iteration t) (current_step_score t).

Definition set_x_train (v : Data) (t : Trainable) : Trainable :=
  mkTrainable (current_config t) v (y_train t) (model t)
              (current_iteration t) (current_step_score t).

Definition set_y_train (v : Data) (t : Trainable) : Trainable :=
  mkTrainable (current_config t) (x_train t) v (model t)
              (current_iteration t) (current_step_score t).

Definition set_model (v : Model) (t : Trainable) : Trainable :=
  mkTrainable (current_config t) (x_train t) (y_train t) v
              (current_iteration t) (current_step_score t).

Definition set_current_iteration (v : value) (t : Trainable) : Trainable :=
  mkTrainable (current_config t) (x_train t) (y_train t) (model t)
              v (current_step_score t).

Definition set_current_step_score (v : value) (t : Trainable) : Trainable :=
  mkTrainable (current_config t) (x_train t) (y_train t) (model t)
              (current_iteration t) v.

(** [self.attr = v] and [self.attr]. *)
Definition assign (setter : Trainable -> Trainable) : M State unit :=
  modify (fun st => mkState (setter (self st)) (env st)).

Definition attr {A} (getter : Trainable -> A) : M State A :=
  gets (fun st => getter (self st)).

(** A computation on the environment, run from inside a method. *)
Definition in_env {A} (m : M Env A) : M State A :=
  fun st => let (en, r) := m (env st) in (mkState (self st) en, r).

Definition lift_result {A} (r : result A) : M State A := fun s => (s, r).

(** [dump(model, path)] and [load(path)] of joblib. *)
Definition joblib_dump (m : Model) (path : string) : M Env unit :=
  emit (CallJoblibDump path) ;;
  ok ← gets (fun en => can_write en path) ;
  if ok : bool then modify (store path (joblib_dumps m))
  else raise (OSError path).

Definition joblib_load (path : string) : M Env Model :=
  emit (CallJoblibLoad path) ;;
  f ← gets (fun en => files en !! path) ;
  match f with
  | None => raise (OSError path)
  | Some bytes => match joblib_loads bytes with
                  | Some m => mret m
                  | None => raise UnpicklingError
                  end
  end.

(** *** The five methods *)

(** [self.model.fit(...)]: the estimator is changed in place, also by a
    call that raises. *)
Definition fit_in_place (m : Model) (x y : Data) (init_model : option Model)
    : M State unit :=
  let (m', outcome) := model_fit m x y init_model in
  assign (set_model m') ;;
  lift_result outcome.

Definition setup (cfg : config) (x y : Data) : M State unit :=
  assign (set_current_config cfg) ;;
  assign (set_x_train x) ;;
  assign (set_y_train y) ;;
  c ← attr current_config ;
  in_env (emit CallLGBMRegressor) ;;
  m ← lift_result (LGBMRegressor c) ;
  assign (set_model m) ;;
  assign (set_current_iteration (PInt 0)) ;;
  assign (set_current_step_score PNone).

Definition step : M State config :=
  it ← attr current_iteration ;
  it' ← lift_result (py_iadd_int it 1) ;
  assign (set_current_iteration it') ;;
  it ← attr current_iteration ;
  m ← attr model ;
  x ← attr x_train ;
  y ← attr y_train ;
  (if py_eq_int it 1 then
     in_env (emit (CallModelFit false)) ;;
     fit_in_place m x y None
   else
     in_env (emit (CallModelFit true)) ;;
     fit_in_place m x y (Some m)) ;;
  m ← attr model ;
  in_env (emit CallCrossValScore) ;;
  mean ← lift_result (cross_val_score_mean m x y) ;
  assign (set_current_step_score (PFloat mean)) ;;
  score ← attr current_step_score ;
  let results_dict := [("r2_score", score)] in
  mret results_dict.

Definition save_checkpoint (tmp_checkpoint_dir : string) : M State string :=
  let path := path_join tmp_checkpoint_dir "checkpoint" in
  f ← in_env (open_w path) ;
  score ← attr current_step_score ;
  it ← attr current_iteration ;
  in_env (file_write f (json_dumps
    (PDict [("current_score", score); ("current_step", it)]))) ;;
  let path_for_model := path_join tmp_checkpoint_dir "model.joblib" in
  m ← attr model ;
  in_env (joblib_dump m path_for_model) ;;
  mret tmp_checkpoint_dir.

Definition load_checkpoint (tmp_checkpoint_dir : string) : M State unit :=
  f ← in_env (open_r (path_join tmp_checkpoint_dir "checkpoint")) ;
  text ← in_env (file_read f) ;
  state ← match json_loads text with
          | Some v => mret v
          | None => raise JSONDecodeError
          end ;
  score ← lift_result (py_getitem state "current_score") ;
  assign (set_current_step_score score) ;;
  it ← lift_result (py_getitem state "current_step") ;
  assign (set_current_iteration it) ;;
  let path_for_model := path_join tmp_checkpoint_dir "model.joblib" in
  m ← in_env (joblib_load path_for_model) ;
  assign (set_model m).

Definition reset_config (new_config : config) : M State bool :=
  assign (set_current_config new_config) ;;
  assign (set_current_iteration (PInt 0)) ;;
  assign (set_current_step_score PNone) ;;
  c ← attr current_config ;
  in_env (emit CallLGBMRegressor) ;;
  m ← lift_result (LGBMRegressor c) ;
  assign (set_model m) ;;
  mret true.

(** The counter is an int in every state the class itself builds: a
    [setup] that returns and [reset_config] set it to 0, [step] adds 1, and
    a checkpoint holds the counter of the instance that wrote it. *)
Definition counter_is_int (t : Trainable) : Prop :=
  exists n, current_iteration t = PInt n.

(** What [save_checkpoint] passes to [json.dumps]. *)
Definition checkpoint_state (t : Trainable) : value :=
  PDict [("current_score", current_step_score t);
         ("current_step", current_iteration t)].

(** [json.loads(json.dumps(v))] is [v], and [load] gives back what [dump]
    was given: what the libraries promise for the values of a checkpoint
    (None, an int, a float; a picklable estimator). *)
Definition json_round_trips (v : value) : Prop :=
  json_loads (json_dumps v) = Some v.

Definition joblib_round_trips (m : Model) : Prop :=
  joblib_loads (joblib_dumps m) = Some m.

(** *** Invocations by the framework *)

(** One call of a method with its arguments. *)
Inductive invocation :=
| InvSetup (cfg : config) (x y : Data)
| InvStep
| InvSaveCheckpoint (tmp_checkpoint_dir : string)
| InvLoadCheckpoint (tmp_checkpoint_dir : string)
| InvResetConfig (new_config : config).

Definition method_name (i : invocation) : string :=
  match i with
  | InvSetup _ _ _ => "setup"
  | InvStep => "step"
  | InvSaveCheckpoint _ => "save_checkpoint"
  | InvLoadCheckpoint _ => "load_checkpoint"
  | InvResetConfig _ => "reset_config"
  end.

(** The state a call leaves behind, whether it returns or raises. *)
Definition invoke (i : invocation) (st : State) : State :=
  match i with
  | InvSetup cfg x y => fst (setup cfg x y st)
  | InvStep => fst (step st)
  | InvSaveCheckpoint d => fst (save_checkpoint d st)
  | InvLoadCheckpoint d => fst (load_checkpoint d st)
  | InvResetConfig cfg => fst (reset_config cfg st)
  end.

(** The library calls made during a call: what it appended to the log. *)
Definition calls_of (i : invocation) (st : State) : list event :=
  drop (length (trace (env st))) (trace (env (invoke i st))).

(** The values [+= 1] is defined on. *)
Definition is_number (v : value) : bool :=
  match v with
  | PBool _ | PInt _ | PFloat _ => true
  | PNone | PStr _ | PList _ | PDict _ => false
  end.

(** *** Sequences of calls *)

Definition is_step_call (i : invocation) : bool :=
  match i with
  | InvStep => true
  | _ => false
  end.

Definition is_save_call (i : invocation) : bool :=
  match i with
  | InvSaveCheckpoint _ => true
  | _ => false
  end.

(** The calls of a list, one after the other, each from the state the one
    before left (an exception ends a call, not the sequence). *)
Definition invoke_all (calls : list invocation) (st : State) : State :=
  fold_left (fun s i => invoke i s) calls st.

End Methods.

(** ** The top-level cells *)

(** A float literal of the source, [mantissa]e[exponent]. *)
Record decimal := mkDecimal {
  mantissa : Z;
  exponent : Z
}.

(** The search-space API of Tune. *)
Inductive domain :=
| Loguniform (lower upper : decimal)
| Randint (lower upper : Z).

Record PopulationBasedTraining := mkPopulationBasedTraining {
  time_attr : string;
  perturbation_interval : Z;
  burn_in_period : Z;
  hyperparam_mutations : list (string * domain)
}.

Record TuneConfig := mkTuneConfig {
  metric : string;
  mode : string;
  search_alg : option unit;
  scheduler : PopulationBasedTraining;
  num_samples : Z;
  reuse_actors : bool
}.

Record CheckpointConfig := mkCheckpointConfig {
  checkpoint_score_attribute : string;
  checkpoint_score_order : string;
  checkpoint_frequency : Z;
  checkpoint_at_end : bool
}.

Record RunConfig := mkRunConfig {
  name : string;
  local_dir : string;
  stop : list (string * Z);
  checkpoint_config : CheckpointConfig
}.

(** The class of cell 15, with empty bodies, and the finished class of
    cell 31, which rebinds the name. *)
Definition TrainableForPBT_stub : class_def :=
  mkClass "TrainableForPBT" ["tune.Trainable"]
    [("setup", ["self"; "config"]);
     ("step", ["self"])].

Definition TrainableForPBT : class_def :=
  mkClass "TrainableForPBT" ["tune.Trainable"]
    [("setup", ["self"; "config"; "x_train"; "y_train"]);
     ("step", ["self"]);
     ("save_checkpoint", ["self"; "tmp_checkpoint_dir"]);
     ("load_checkpoint", ["self"; "tmp_checkpoint_dir"]);
     ("reset_config", ["self"; "new_config"])].

(** The names of the methods a class body defines. *)
Definition method_names (c : class_def) : gset string :=
  list_to_set (map fst (methods c)).

Section Script.

Context {L : Libs}.

(** [tune.with_parameters(cls, x_train=..., y_train=...)]. *)
Record WithParameters := mkWithParameters {
  trainable_class : class_def;
  with_x_train : Data;
  with_y_train : Data
}.

Record Tuner := mkTuner {
  trainable : WithParameters;
  param_space : list (string * domain);
  tune_config : TuneConfig;
  run_config : RunConfig
}.

(** scikit-learn's data set and split, and Ray Tune's run with what the
    last cell reads from its results, as the text the f-strings show.  Of
    the run only the result is kept: the files it writes are not part of
    [Env]. *)
Class Ray := {
  ResultGrid : Type;
  load_boston : Data * Data;
  train_test_split : Data -> Data -> Data * Data * Data * Data;
  tuner_fit : Tuner -> ResultGrid;
  best_trial_id : ResultGrid -> string;
  best_result_score : ResultGrid -> string;
  best_checkpoint : ResultGrid -> string
}.

Context {R : Ray}.

(** A global name bound by [class]. *)
Definition global_class (name : string) : M Env class_def :=
  d ← gets (fun en => definitions en !! name) ;
  match d with
  | Some (ClassDef c) => mret c
  | Some (FunctionDef _) => raise TypeError
  | None => raise (NameError name)
  end.

(** [d[key]] on a dict literal of the script. *)
Definition getitem {A} (d : list (string * A)) (key : string) : M Env A :=
  match dict_get d key with
  | Some x => mret x
  | None => raise (KeyError key)
  end.

Definition notebook : M Env unit :=
  (* cell 12 *)
  emit CallPipInstall ;;
  (* cell 15 *)
  modify (define "TrainableForPBT" (ClassDef TrainableForPBT_stub)) ;;
  (* cells 18, 20, 23, 25, 29: functions of the module, not methods *)
  modify (define "setup" (FunctionDef ["self"; "config"; "x_train"; "y_train"])) ;;
  modify (define "step" (FunctionDef ["self"])) ;;
  modify (define "save_checkpoint" (FunctionDef ["self"; "tmp_checkpoint_dir"])) ;;
  modify (define "load_checkpoint" (FunctionDef ["self"; "tmp_checkpoint_dir"])) ;;
  modify (define "reset_config" (FunctionDef ["self"; "new_config"])) ;;
  (* cell 31 *)
  modify (define "TrainableForPBT" (ClassDef TrainableForPBT)) ;;
  (* cell 35 *)
  emit CallLoguniform ;;
  emit CallRandint ;;
  emit CallRandint ;;
  let param_space :=
    [("params",
      [("learning_rate", Loguniform (mkDecimal 1 (-5)) (mkDecimal 1 (-1)));
       ("num_leaves", Randint 5 100);
       ("max_depth", Randint 1 9)])] in
  (* cell 38 *)
  mutations ← getitem param_space "params" ;
  emit CallPopulationBasedTraining ;;
  let pbt := mkPopulationBasedTraining "training_iteration" 4 10 mutations in
  (* cell 40 *)
  emit CallTuneConfig ;;
  let tune_config := mkTuneConfig "r2_score" "max" None pbt 15 true in
  (* cell 42 *)
  emit CallCheckpointConfig ;;
  let checkpoint_config := mkCheckpointConfig "r2_score" "max" 4 true in
  (* cell 44 *)
  emit CallRunConfig ;;
  let run_config :=
    mkRunConfig "pbt_experiment" "/Users/admin/Desktop/Dressler/Publications"
                [("training_iteration", 30)] checkpoint_config in
  (* cell 46 *)
  emit CallLoadBoston ;;
  let '(X, y) := load_boston in
  emit CallTrainTestSplit ;;
  let '(x_train, x_test, y_train, y_test) := train_test_split X y in
  (* cell 47 *)
  cls ← global_class "TrainableForPBT" ;
  emit CallWithParameters ;;
  let trainable_with_parameters := mkWithParameters cls x_train y_train in
  (* cell 48 *)
  params ← getitem param_space "params" ;
  emit CallTuner ;;
  let tuner := mkTuner trainable_with_parameters params tune_config run_config in
  emit CallTunerFit ;;
  let analysis := tuner_fit tuner in
  (* cell 50 *)
  emit CallBestTrial ;;
  emit CallGetBestResult ;;
  emit CallAsDirectory ;;
  emit (CallPrintLine ("BEST TRIAL ID: " +:+ best_trial_id analysis)) ;;
  emit (CallPrintLine ("BEST RESULT SCORE: " +:+ best_result_score analysis)) ;;
  emit (CallPrintLine ("BEST CHECKPOINT DIRECTORY: " +:+ best_checkpoint analysis)).

(** The calls the cells make up to the construction of the tuner, and the
    calls of the last cell. *)
Definition calls_before_fit : list event :=
  [CallPipInstall; CallLoguniform; CallRandint; CallRandint;
   CallPopulationBasedTraining; CallTuneConfig; CallCheckpointConfig;
   CallRunConfig; CallLoadBoston; CallTrainTestSplit; CallWithParameters;
   CallTuner].

Definition calls_after_fit (analysis : ResultGrid) : list event :=
  [CallBestTrial; CallGetBestResult; CallAsDirectory;
   CallPrintLine ("BEST TRIAL ID: " +:+ best_trial_id analysis);
   CallPrintLine ("BEST RESULT SCORE: " +:+ best_result_score analysis);
   CallPrintLine ("BEST CHECKPOINT DIRECTORY: " +:+ best_checkpoint analysis)].

(** The argument of [Tuner(...)] in cell 48, from the values the cells
    before it bind. *)
Definition notebook_tuner : Tuner :=
  let params :=
    [("learning_rate", Loguniform (mkDecimal 1 (-5)) (mkDecimal 1 (-1)));
     ("num_leaves", Randint 5 100);
     ("max_depth", Randint 1 9)] in
  let '(X, y) := load_boston in
  let '(x_train, x_test, y_train, y_test) := train_test_split X y in
  mkTuner
    (mkWithParameters TrainableForPBT x_train y_train)
    params
    (mkTuneConfig "r2_score" "max" None
       (mkPopulationBasedTraining "training_iteration" 4 10 params) 15 true)
    (mkRunConfig "pbt_experiment" "/Users/admin/Desktop/Dressler/Publications"
       [("training_iteration", 30)]
       (mkCheckpointConfig "r2_score" "max" 4 true)).

(** The calls the cells make when run from [en]. *)
Definition script_calls (en : Env) : list event :=
  drop (length (trace en)) (trace (fst (notebook en))).

End Script.

(** ** A small instance of the libraries, to run the code on

    Floats are integers, a data set is a list of integers and a model is
    the number of boosting rounds it was fit for: a fresh fit counts one,
    a fit from an [init_model] continues from its count.  The score of a
    model is its count.  The calls raise where the libraries do: the
    constructor on a keyword named self, [fit] on no rows and on an
    [init_model] that was never fit, [cross_val_score] with its five folds
    on fewer than five rows. *)
Module Toy.

Definition quote : string := String "034"%char EmptyString.

(** json.dumps, with the floats (integers here) shown with a [.0]. *)
Fixpoint dumps (v : pyval Z) : string :=
  match v with
  | PNone => "null"
  | PBool b => if b then "true" else "false"
  | PInt n => pretty n
  | PFloat f => pretty f +:+ ".0"
  | PStr s => quote +:+ s +:+ quote
  | PList l =>
      "[" +:+ (fix items (l : list (pyval Z)) : string :=
                 match l with
                 | [] => ""
                 | [x] => dumps x
                 | x :: rest => dumps x +:+ ", " +:+ items rest
                 end) l +:+ "]"
  | PDict d =>
      "{" +:+ (fix items (d : list (string * pyval Z)) : string :=
                 match d with
                 | [] => ""
                 | [(k, x)] => quote +:+ k +:+ quote +:+ ": " +:+ dumps x
                 | (k, x) :: rest =>
                     quote +:+ k +:+ quote +:+ ": " +:+ dumps x +:+ ", "
                     +:+ items rest
                 end) d +:+ "}"
  end.

(** The checkpoints with a score among [None, 0.0, 1.0, 2.0, 3.0] and a
    step among [0, 1, 2, 3]: the texts that [loads] reads back. *)
Definition known_checkpoints : list (pyval Z) :=
  score ← [PNone; PFloat 0; PFloat 1; PFloat 2; PFloat 3] ;
  it ← [PInt 0; PInt 1; PInt 2; PInt 3] ;
  [PDict [("current_score", score); ("current_step", it)]].

Definition loads (text : string) : option (pyval Z) :=
  find (fun v => bool_decide (dumps v = text)) known_checkpoints.

Definition pickle (m : nat) : string := "rounds=" +:+ pretty m.

Definition unpickle (bytes : string) : option nat :=
  find (fun m => bool_decide (pickle m = bytes)) (seq 0 8).

Definition new_regressor (cfg : dict Z) : result nat :=
  match dict_get cfg "self" with
  | Some _ => Raise TypeError
  | None => Ok 0%nat
  end.

Definition fit (m : nat) (x y : list Z) (init : option nat)
    : nat * result unit :=
  match x, init with
  | [], _ => (m, Raise ValueError)
  | _ :: _, None => (1%nat, Ok tt)
  | _ :: _, Some O => (m, Raise (OtherError "LGBMNotFittedError"))
  | _ :: _, Some (S m0) => (S (S m0), Ok tt)
  end.

Definition cross_val (m : nat) (x y : list Z) : result Z :=
  if bool_decide (length x < 5)%nat then Raise ValueError
  else Ok (Z.of_nat m).

Definition libs : Libs := {|
  Float := Z;
  Data := list Z;
  Model := nat;
  float_add_int := Z.add;
  float_eq_int := Z.eqb;
  LGBMRegressor := new_regressor;
  model_fit := fit;
  cross_val_score_mean := cross_val;
  json_dumps := dumps;
  json_loads := loads;
  joblib_dumps := pickle;
  joblib_loads := unpickle
|}.

Definition ray : @Ray libs :=
  @Build_Ray libs
    (* ResultGrid *) unit
    (* load_boston *) ([1; 2; 3; 4; 5; 6], [2; 4; 6; 8; 10; 12])
    (* train_test_split *)
    (fun X y : list Z => (take 5 X, drop 5 X, take 5 y, drop 5 y))
    (* tuner_fit *) (fun _ => tt)
    (* best_trial_id *) (fun _ => "00000")
    (* best_result_score *) (fun _ => "1.0")
    (* best_checkpoint *) (fun _ => "Checkpoint").

(** An empty disk on which every path can be written. *)
Definition disk : Env := mkEnv ∅ (fun _ => true) ∅ [].

(** The instance right after [setup], and after three steps. *)
Definition fresh : @Trainable libs :=
  @mkTrainable libs [("num_leaves", PInt 31)] [1; 2; 3; 4; 5] [2; 4; 6; 8; 10] 0%nat
              (PInt 0) PNone.

Definition trained : @Trainable libs :=
  @mkTrainable libs [("num_leaves", PInt 31)] [1; 2; 3; 4; 5] [2; 4; 6; 8; 10] 3%nat
              (PInt 3) (PFloat 3).

(** A disk on which nothing can be written, and one on which only the
    file [checkpoint] of /tmp/ckpt can. *)
Definition read_only : Env := mkEnv ∅ (fun _ => false) ∅ [].

Definition model_locked : Env :=
  mkEnv ∅ (fun path => bool_decide (path = "/tmp/ckpt/checkpoint")) ∅ [].

(** A disk with the checkpoint file of [fresh] but no model file. *)
Definition no_model_file : Env :=
  mkEnv {[ "/tmp/ckpt/checkpoint" := dumps (PDict [("current_score", PNone);
                                                   ("current_step", PInt 0)]) ]}
        (fun _ => true) ∅ [].

(** The same libraries with a json.loads that also reads three texts no
    [save_checkpoint] writes: an object without the key of the counter, one
    whose counter is null and that has a key more, and a list. *)
Definition without_counter : pyval Z := PDict [("current_score", PFloat 1)].

Definition null_counter : pyval Z :=
  PDict [("epoch", PInt 7); ("current_score", PFloat 2);
         ("current_step", PNone)].

Definition a_list : pyval Z := PList [PInt 1].

Definition foreign_checkpoints : list (pyval Z) :=
  [without_counter; null_counter; a_list].

Definition lenient : Libs := {|
  Float := Z;
  Data := list Z;
  Model := nat;
  float_add_int := Z.add;
  float_eq_int := Z.eqb;
  LGBMRegressor := new_regressor;
  model_fit := fit;
  cross_val_score_mean := cross_val;
  json_dumps := dumps;
  json_loads := fun text =>
    find (fun v => bool_decide (dumps v = text))
         (known_checkpoints ++ foreign_checkpoints);
  joblib_dumps := pickle;
  joblib_loads := unpickle
|}.

(** Disks with these two texts as the checkpoint file, and a model file. *)
Definition foreign_disk (v : pyval Z) : Env :=
  mkEnv {[ "/tmp/ckpt/checkpoint" := dumps v;
           "/tmp/ckpt/model.joblib" := pickle 5 ]}
        (fun _ => true) ∅ [].

Definition lenient_trained : @Trainable lenient :=
  @mkTrainable lenient [("num_leaves", PInt 31)] [1; 2; 3; 4; 5] [2; 4; 6; 8; 10]
               3%nat (PInt 3) (PFloat 3).

(** An instance set up on four rows, one fewer than the folds of
    [cross_val_score]. *)
Definition small : @Trainable libs :=
  @mkTrainable libs [("num_leaves", PInt 31)] [1; 2; 3; 4] [2; 4; 6; 8] 0%nat
               (PInt 0) PNone.

(** An instance on the empty disk. *)
Definition state_of (t : @Trainable libs) : @State libs := mkState t disk.

End Toy.

(** * Properties *)

(** ** Strings and paths *)

Lemma append_empty_l (s : string) : "" +:+ s = s.
Proof. reflexivity. Qed.

Lemma append_inj_r (p a b : string) : p +:+ a = p +:+ b -> a = b.
Proof.
  induction p as [|c p IH]; simpl; intros H.
  - exact H.
  - injection H as H. auto.
Qed.

(** The two files of a checkpoint never share a path. *)
Lemma checkpoint_paths_differ (d : string) :
  path_join d "checkpoint" <> path_join d "model.joblib".
Proof.
  unfold path_join. simpl.
  destruct (bool_decide (d = "") || endswith_sep d).
  - intros H. apply append_inj_r in H. discriminate.
  - intros H. apply append_inj_r in H. discriminate.
Qed.

Section Properties.

Context {L : Libs}.

Local Abbreviation value := (pyval Float).
Local Abbreviation config := (dict Float).

(** Unfolds the monad and the primitives it runs. *)
Ltac run :=
  unfold mbind, mret, M_bind, M_ret, assign, attr, in_env, lift_result,
    emit, modify, gets, raise; simpl.

(** ** step, path by path *)

(** [step] on its four paths: the increment raises; [fit] raises; the
    cross-validation raises; the step returns. *)
Lemma step_unfold (st : State) :
  step st =
    match py_iadd_int (current_iteration (self st)) 1 with
    | Raise e => (st, Raise e)
    | Ok it =>
        let m := model (self st) in
        let x := x_train (self st) in
        let y := y_train (self st) in
        let with_init := negb (py_eq_int it 1) in
        let fitted := model_fit m x y (if with_init then Some m else None) in
        let t := set_model (fst fitted) (set_current_iteration it (self st)) in
        let en1 := log (CallModelFit with_init) (env st) in
        match snd fitted with
        | Raise e => (mkState t en1, Raise e)
        | Ok _ =>
            let en2 := log CallCrossValScore en1 in
            match cross_val_score_mean (fst fitted) x y with
            | Raise e => (mkState t en2, Raise e)
            | Ok mean =>
                (mkState (set_current_step_score (PFloat mean) t) en2,
                 Ok [("r2_score", PFloat mean)])
            end
        end
    end.
Proof.
  unfold step, fit_in_place. run.
  destruct (py_iadd_int (current_iteration (self st)) 1) as [it|];
    [|reflexivity].
  simpl. destruct (py_eq_int it 1); simpl.
  - destruct (model_fit (model (self st)) (x_train (self st))
                (y_train (self st)) None) as [m' [[]|e]]; simpl;
      [|reflexivity].
    destruct (cross_val_score_mean m' (x_train (self st)) (y_train (self st)));
      reflexivity.
  - destruct (model_fit (model (self st)) (x_train (self st))
                (y_train (self st)) (Some (model (self st))))
      as [m' [[]|e]]; simpl; [|reflexivity].
    destruct (cross_val_score_mean m' (x_train (self st)) (y_train (self st)));
      reflexivity.
Qed.

(** Walks the paths of [step_unfold] once the increment is known to
    return, and runs [tac] at the end of each. *)
Ltac step_paths tac :=
  simpl;
  match goal with
  | |- context [model_fit ?m ?x ?y ?init] =>
      destruct (model_fit m x y init) as [m' [[]|e]]; simpl; [|tac];
      destruct (cross_val_score_mean m' x y); simpl; tac
  end.

(** ** The iteration counter *)

Lemma setup_counter_is_int cfg x y st :
  snd (setup cfg x y st) = Ok tt ->
  counter_is_int (self (fst (setup cfg x y st))).
Proof.
  unfold setup. run. destruct (LGBMRegressor cfg); simpl.
  - intros _. exists 0. reflexivity.
  - discriminate.
Qed.

Lemma reset_config_counter_is_int cfg st :
  counter_is_int (self (fst (reset_config cfg st))).
Proof.
  exists 0. unfold reset_config. run.
  destruct (LGBMRegressor cfg); reflexivity.
Qed.

(** The increment comes first: the counter is one more after a [step],
    also after one that raises in a library call. *)
Lemma step_counter_after (st : State) (n : Z) :
  current_iteration (self st) = PInt n ->
  current_iteration (self (fst (step st))) = PInt (n + 1).
Proof.
  intros Hn. rewrite step_unfold, Hn.
  step_paths ltac:(idtac; reflexivity).
Qed.

Lemma step_counter_is_int st :
  counter_is_int (self st) -> counter_is_int (self (fst (step st))).
Proof.
  intros [n Hn]. exists (n + 1). apply step_counter_after. exact Hn.
Qed.

(** ** The library calls of each method *)

(** Walks the seven paths through [load_checkpoint d st] (a missing
    checkpoint file, text that is no JSON, a missing or unsubscriptable
    key twice, a missing model file, bytes that are no pickle, and the
    return) and runs [tac] at the end of each. *)
Ltac load_checkpoint_paths d st tac :=
  unfold load_checkpoint, open_r, file_read, joblib_load; run;
  destruct (files (env st) !! path_join d "checkpoint")
    as [text|] eqn:Htext; simpl; [|tac];
  rewrite ?Htext; simpl;
  destruct (json_loads text) as [state|]; simpl; [|tac];
  destruct (py_getitem state "current_score") as [score|]; simpl; [|tac];
  destruct (py_getitem state "current_step") as [it|]; simpl; [|tac];
  destruct (files (env st) !! path_join d "model.joblib")
    as [bytes|]; simpl; [|tac];
  destruct (joblib_loads bytes) as [m|]; simpl; tac.


(** Closes a goal on the calls appended to a log. *)
Ltac appended :=
  rewrite <- ?app_assoc; simpl; rewrite ?drop_app_length, ?drop_all;
  try reflexivity.

Lemma calls_of_setup cfg x y st :
  calls_of (InvSetup cfg x y) st = [CallLGBMRegressor].
Proof.
  unfold calls_of, invoke, setup. run.
  destruct (LGBMRegressor cfg); simpl; appended.
Qed.

Lemma calls_of_reset_config cfg st :
  calls_of (InvResetConfig cfg) st = [CallLGBMRegressor].
Proof.
  unfold calls_of, invoke, reset_config. run.
  destruct (LGBMRegressor cfg); simpl; appended.
Qed.

Lemma calls_of_step st :
  calls_of InvStep st =
    match py_iadd_int (current_iteration (self st)) 1 with
    | Ok it =>
        let m := model (self st) in
        let with_init := negb (py_eq_int it 1) in
        CallModelFit with_init ::
        match snd (model_fit m (x_train (self st)) (y_train (self st))
                             (if with_init then Some m else None)) with
        | Ok _ => [CallCrossValScore]
        | Raise _ => []
        end
    | Raise _ => []
    end.
Proof.
  unfold calls_of, invoke. rewrite step_unfold.
  destruct (py_iadd_int (current_iteration (self st)) 1) as [it|]; simpl;
    [|appended].
  step_paths ltac:(idtac; appended).
Qed.

Lemma calls_of_save_checkpoint d st :
  calls_of (InvSaveCheckpoint d) st =
    CallOpen (path_join d "checkpoint") WriteMode ::
    if can_write (env st) (path_join d "checkpoint")
    then [CallFileWrite (path_join d "checkpoint");
          CallJoblibDump (path_join d "model.joblib")]
    else [].
Proof.
  unfold calls_of, invoke, save_checkpoint, open_w, file_write, joblib_dump.
  run.
  destruct (can_write (env st) (path_join d "checkpoint")); simpl.
  - destruct (can_write (env st) (path_join d "model.joblib")); simpl;
      appended.
  - appended.
Qed.

Lemma calls_of_load_checkpoint d st :
  exists rest,
    calls_of (InvLoadCheckpoint d) st =
      CallOpen (path_join d "checkpoint") ReadMode :: rest /\
    forallb is_file_io rest = true /\
    match files (env st) !! path_join d "checkpoint" with
    | Some _ =>
        exists rest', rest = CallFileRead (path_join d "checkpoint") :: rest'
    | None => rest = []
    end.
Proof.
  unfold calls_of, invoke, load_checkpoint, open_r, file_read, joblib_load.
  run.
  destruct (files (env st) !! path_join d "checkpoint")
    as [text|] eqn:Htext; simpl.
  2: { exists []. split; [appended | split; reflexivity]. }
  rewrite ?Htext. simpl.
  destruct (json_loads text) as [state|]; simpl.
  2: { eexists [_]. split; [appended | split; [reflexivity | eauto]]. }
  destruct (py_getitem state "current_score") as [score|]; simpl.
  2: { eexists [_]. split; [appended | split; [reflexivity | eauto]]. }
  destruct (py_getitem state "current_step") as [it|]; simpl.
  2: { eexists [_]. split; [appended | split; [reflexivity | eauto]]. }
  destruct (files (env st) !! path_join d "model.joblib") as [bytes|]; simpl.
  2: { eexists [_; _]. split; [appended | split; [reflexivity | eauto]]. }
  destruct (joblib_loads bytes) as [m|]; simpl.
  - eexists [_; _]. split; [appended | split; [reflexivity | eauto]].
  - eexists [_; _]. split; [appended | split; [reflexivity | eauto]].
Qed.

(** Every call a method makes is one of the calls of the method bodies. *)
Lemma calls_of_are_method_calls (i : invocation) (st : State) :
  forallb is_method_call (calls_of i st) = true.
Proof.
  destruct i as [cfg x y| |d|d|cfg].
  - rewrite calls_of_setup. reflexivity.
  - rewrite calls_of_step.
    destruct (py_iadd_int (current_iteration (self st)) 1); [|reflexivity].
    simpl. destruct (snd _); reflexivity.
  - rewrite calls_of_save_checkpoint.
    destruct (can_write (env st) (path_join d "checkpoint")); reflexivity.
  - destruct (calls_of_load_checkpoint d st) as (rest & -> & Hrest & _).
    simpl. apply forallb_forall. intros e He.
    rewrite forallb_forall in Hrest. specialize (Hrest e He).
    destruct e; try discriminate; reflexivity.
  - rewrite calls_of_reset_config. reflexivity.
Qed.

Lemma file_io_is_no_fit (calls : list event) :
  forallb is_file_io calls = true -> fits_model calls = false.
Proof.
  induction calls as [|e calls IH]; simpl; [reflexivity|].
  intros H. apply andb_true_iff in H as [He Hrest].
  rewrite (IH Hrest). destruct e; try discriminate; reflexivity.
Qed.

(** C3, amended: the callbacks share the fitting and the file I/O between
    them, and none does both.
    - [step] calls [model.fit] exactly once when the iteration counter is
      a number and not at all otherwise (it raises at the increment); it
      makes no file call and changes no file.
    - Every call of [save_checkpoint] opens the file [checkpoint] of the
      directory for writing; when the open succeeds the file then holds
      the JSON text of the score and the counter, and when it fails the
      open is the only call and no file changes.  All its calls are file
      calls and none is a fit.
    - Every call of [load_checkpoint] opens that file for reading; when it
      exists the next call reads it, and when it does not the open is the
      only call.  All its calls are file calls, none is a fit, and no
      file changes.
    - [setup] and [reset_config] make one library call, the constructor
      of LGBMRegressor: no fit, no file call, no file changed. *)
Theorem callbacks_fit_or_do_file_io (i : invocation) (st : State) :
  let calls := calls_of i st in
  let after := invoke i st in
  match i with
  | InvSetup _ _ _ | InvResetConfig _ =>
      calls = [CallLGBMRegressor] /\
      files (env after) = files (env st)
  | InvStep =>
      count_fits calls
        = (if is_number (current_iteration (self st)) then 1 else 0)%nat /\
      does_file_io calls = false /\
      files (env after) = files (env st)
  | InvSaveCheckpoint d =>
      exists rest,
        calls = CallOpen (path_join d "checkpoint") WriteMode :: rest /\
        forallb is_file_io rest = true /\
        fits_model calls = false /\
        if can_write (env st) (path_join d "checkpoint")
        then files (env after) !! path_join d "checkpoint"
               = Some (json_dumps (checkpoint_state (self st)))
        else rest = [] /\ files (env after) = files (env st)
  | InvLoadCheckpoint d =>
      exists rest,
        calls = CallOpen (path_join d "checkpoint") ReadMode :: rest /\
        forallb is_file_io rest = true /\
        fits_model calls = false /\
        files (env after) = files (env st) /\
        match files (env st) !! path_join d "checkpoint" with
        | Some _ =>
            exists rest',
              rest = CallFileRead (path_join d "checkpoint") :: rest'
        | None => rest = []
        end
  end.
Proof.
  destruct i as [cfg x y| |d|d|cfg]; cbv zeta.
  - split; [apply calls_of_setup|].
    unfold invoke, setup. run. destruct (LGBMRegressor cfg); reflexivity.
  - rewrite calls_of_step. unfold invoke. rewrite step_unfold.
    destruct (current_iteration (self st)); simpl;
      try (repeat split; reflexivity);
      step_paths ltac:(idtac; repeat split; reflexivity).
  - rewrite calls_of_save_checkpoint.
    unfold invoke, save_checkpoint, open_w, file_write, joblib_dump. run.
    destruct (can_write (env st) (path_join d "checkpoint")); simpl.
    + eexists. split; [reflexivity|]. split; [reflexivity|].
      split; [reflexivity|].
      rewrite lookup_insert_eq. simpl.
      destruct (can_write (env st) (path_join d "model.joblib")); simpl.
      * rewrite lookup_insert_ne, lookup_insert_eq; [reflexivity|].
        intros Heq. exact (checkpoint_paths_differ d (eq_sym Heq)).
      * apply lookup_insert_eq.
    + exists []. repeat split; reflexivity.
  - destruct (calls_of_load_checkpoint d st) as (rest & Hcalls & Hrest & Hread).
    exists rest. split; [exact Hcalls|]. split; [exact Hrest|].
    split; [rewrite Hcalls; apply (file_io_is_no_fit (_ :: rest)); exact Hrest|].
    split; [|exact Hread].
    clear Hcalls Hrest Hread. unfold invoke.
    load_checkpoint_paths d st ltac:(idtac; reflexivity).
  - split; [apply calls_of_reset_config|].
    unfold invoke, reset_config. run. destruct (LGBMRegressor cfg); reflexivity.
Qed.

(** ** step *)

(** C6, amended: from a state whose iteration counter is the int [n],
    [step] leaves the counter at [n + 1], also when a library call raises
    afterwards; it calls [model.fit] exactly once, as its first library
    call, without [init_model] when the new counter is 1 and with
    [init_model] set to the model itself otherwise, on the training data of
    the instance, and the model is then what that call left.  When the fit
    and the cross-validation return, [step] returns a dict with the single
    key "r2_score", bound to the mean score of the cross-validation of the
    fitted model, which is also the [current_step_score] after the call. *)
Theorem step_increments_and_reports (st : State) (n : Z) :
  current_iteration (self st) = PInt n ->
  let m := model (self st) in
  let x := x_train (self st) in
  let y := y_train (self st) in
  let first := bool_decide (n + 1 = 1) in
  let fitted := model_fit m x y (if first then None else Some m) in
  let st' := fst (step st) in
  current_iteration (self st') = PInt (n + 1) /\
  count_fits (calls_of InvStep st) = 1%nat /\
  head (calls_of InvStep st) = Some (CallModelFit (negb first)) /\
  model (self st') = fst fitted /\
  forall mean : Float,
    snd fitted = Ok tt ->
    cross_val_score_mean (fst fitted) x y = Ok mean ->
    snd (step st) = Ok [("r2_score", PFloat mean)] /\
    current_step_score (self st') = PFloat mean /\
    calls_of InvStep st = [CallModelFit (negb first); CallCrossValScore].
Proof.
  intros Hn. cbv zeta.
  rewrite calls_of_step, step_unfold, Hn. simpl.
  case_bool_decide as Hone; simpl.
  - destruct (model_fit (model (self st)) (x_train (self st))
                (y_train (self st)) None) as [m' [[]|e]]; simpl.
    + destruct (cross_val_score_mean m' (x_train (self st))
                  (y_train (self st))) as [s|e]; simpl;
        repeat (split; [reflexivity|]); intros mean _ Hmean;
        [injection Hmean as <-; repeat split; reflexivity | discriminate].
    + repeat (split; [reflexivity|]). intros mean Hfit. discriminate.
  - destruct (model_fit (model (self st)) (x_train (self st))
                (y_train (self st)) (Some (model (self st))))
      as [m' [[]|e]]; simpl.
    + destruct (cross_val_score_mean m' (x_train (self st))
                  (y_train (self st))) as [s|e]; simpl;
        repeat (split; [reflexivity|]); intros mean _ Hmean;
        [injection Hmean as <-; repeat split; reflexivity | discriminate].
    + repeat (split; [reflexivity|]). intros mean Hfit. discriminate.
Qed.

(** ** load_checkpoint *)

Lemma load_checkpoint_keeps_config (d : string) (st : State) :
  current_config (self (fst (load_checkpoint d st))) = current_config (self st).
Proof. load_checkpoint_paths d st ltac:(idtac; reflexivity). Qed.

(** C5: whatever the directory holds, and whether [load_checkpoint]
    returns or raises, the instance it leaves has the [current_config],
    [x_train] and [y_train] it had before: only [current_step_score],
    [current_iteration] and [model] can differ.  No file changes either. *)
Theorem load_checkpoint_frame (tmp_checkpoint_dir : string) (st : State) :
  let st' := fst (load_checkpoint tmp_checkpoint_dir st) in
  current_config (self st') = current_config (self st) /\
  x_train (self st') = x_train (self st) /\
  y_train (self st') = y_train (self st) /\
  files (env st') = files (env st).
Proof.
  load_checkpoint_paths tmp_checkpoint_dir st
    ltac:(idtac; split; [|split; [|split]]; reflexivity).
Qed.

(** ** save_checkpoint, then load_checkpoint *)

(** C4: in a directory whose two checkpoint files can be written,
    [save_checkpoint] returns its argument and leaves the instance as it
    was; a later [load_checkpoint] of the same directory, on any instance
    and with the two files as they were left, returns and sets
    [current_step_score], [current_iteration] and [model] to the values the
    saving instance had.  json and joblib are assumed to read back what
    they wrote for these values. *)
Theorem save_then_load_restores (t : Trainable) (tmp_checkpoint_dir : string)
    (en : Env) :
  can_write en (path_join tmp_checkpoint_dir "checkpoint") = true ->
  can_write en (path_join tmp_checkpoint_dir "model.joblib") = true ->
  json_round_trips (checkpoint_state t) ->
  joblib_round_trips (model t) ->
  exists en1,
    save_checkpoint tmp_checkpoint_dir (mkState t en)
      = (mkState t en1, Ok tmp_checkpoint_dir) /\
    forall (t2 : Trainable) (en2 : Env),
      files en2 !! path_join tmp_checkpoint_dir "checkpoint"
        = files en1 !! path_join tmp_checkpoint_dir "checkpoint" ->
      files en2 !! path_join tmp_checkpoint_dir "model.joblib"
        = files en1 !! path_join tmp_checkpoint_dir "model.joblib" ->
      exists st3,
        load_checkpoint tmp_checkpoint_dir (mkState t2 en2) = (st3, Ok tt) /\
        current_step_score (self st3) = current_step_score t /\
        current_iteration (self st3) = current_iteration t /\
        model (self st3) = model t.
Proof.
  intros Hw1 Hw2 Hjson Hjoblib.
  pose proof (checkpoint_paths_differ tmp_checkpoint_dir) as Hne.
  unfold json_round_trips, checkpoint_state in Hjson.
  unfold joblib_round_trips in Hjoblib.
  eexists. split.
  - unfold save_checkpoint, open_w, file_write, joblib_dump. run.
    rewrite Hw1. simpl. rewrite lookup_insert_eq. simpl.
    rewrite Hw2. simpl. reflexivity.
  - intros t2 en2 Hf1 Hf2. simpl in Hf1, Hf2.
    rewrite lookup_insert_ne, lookup_insert_eq in Hf1 by congruence.
    rewrite lookup_insert_eq in Hf2. rewrite append_empty_l in Hf1.
    unfold load_checkpoint, open_r, file_read, joblib_load. run.
    rewrite Hf1. simpl. rewrite Hf1. simpl.
    rewrite Hjson. simpl.
    rewrite Hf2. simpl. rewrite Hjoblib. simpl.
    eexists. split; [reflexivity|]. simpl. auto.
Qed.

(** ** The hyperparameters *)

(** No method computes a configuration: after any call, [current_config]
    is the one the caller passed ([setup], [reset_config]) or the one the
    instance already had. *)
Lemma config_comes_from_the_caller (i : invocation) (st : State) :
  current_config (self (invoke i st)) =
    match i with
    | InvSetup cfg _ _ | InvResetConfig cfg => cfg
    | InvStep | InvSaveCheckpoint _ | InvLoadCheckpoint _ =>
        current_config (self st)
    end.
Proof.
  destruct i as [cfg x y| |d|d|cfg]; simpl.
  - unfold setup. run. destruct (LGBMRegressor cfg); reflexivity.
  - rewrite step_unfold.
    destruct (py_iadd_int (current_iteration (self st)) 1) as [it|]; simpl;
      [|reflexivity].
    step_paths ltac:(idtac; reflexivity).
  - unfold save_checkpoint, open_w, file_write, joblib_dump. run.
    destruct (can_write (env st) (path_join d "checkpoint")); simpl;
      [|reflexivity].
    destruct (can_write (env st) (path_join d "model.joblib")); reflexivity.
  - apply load_checkpoint_keeps_config.
  - unfold reset_config. run. destruct (LGBMRegressor cfg); reflexivity.
Qed.

(** ** The top-level cells *)

Section ScriptProperties.

Context {R : Ray}.

Lemma notebook_runs (en : Env) :
  exists (en' : Env) (tuner : Tuner),
    notebook en = (en', Ok tt) /\
    trace en' = trace en ++ calls_before_fit ++ [CallTunerFit]
                  ++ calls_after_fit (tuner_fit tuner) /\
    definitions en' !! "TrainableForPBT" = Some (ClassDef TrainableForPBT) /\
    trainable_class (trainable tuner) = TrainableForPBT /\
    scheduler (tune_config tuner)
      = mkPopulationBasedTraining "training_iteration" 4 10 (param_space tuner).
Proof.
  unfold notebook, global_class, getitem. 
  unfold mbind, mret, M_bind, M_ret, emit, modify, gets, raise. simpl.
  destruct load_boston as [X y].
  destruct (train_test_split X y) as [[[x_tr x_te] y_tr] y_te]. simpl.
  rewrite lookup_insert_eq. simpl.
  eexists _, _. split; [reflexivity|]. simpl.
  split. { rewrite <- !app_assoc. reflexivity. }
  split. { apply lookup_insert_eq. }
  split; reflexivity.
Qed.

(** C1: run from any environment, the cells finish without an exception.
    Their library calls are, in order: those that build the search space
    ([tune.loguniform], [tune.randint]), the scheduler
    ([PopulationBasedTraining]), the configuration objects ([TuneConfig],
    [CheckpointConfig], [RunConfig]), the wrapped trainable class
    ([tune.with_parameters] on the class TrainableForPBT) and the tuner;
    then one [tuner.fit()]; then the reads of the results and three
    prints.  [tuner.fit()] occurs once among the calls of the cells, and
    no call of a method of the class makes it. *)
Theorem notebook_fits_exactly_once (en : Env) :
  snd (notebook en) = Ok tt /\
  (exists tuner : Tuner,
     script_calls en = calls_before_fit ++ [CallTunerFit]
                         ++ calls_after_fit (tuner_fit tuner) /\
     trainable_class (trainable tuner) = TrainableForPBT) /\
  count_occ event_eq_dec (script_calls en) CallTunerFit = 1%nat /\
  (forall (i : invocation) (st : State),
     count_occ event_eq_dec (calls_of i st) CallTunerFit = 0%nat).
Proof.
  destruct (notebook_runs en) as (en' & tuner & Hrun & Htrace & _ & Hcls & _).
  assert (Hcalls : script_calls en = calls_before_fit ++ [CallTunerFit]
                                       ++ calls_after_fit (tuner_fit tuner)).
  { unfold script_calls. rewrite Hrun. simpl. rewrite Htrace.
    apply drop_app_length. }
  split; [rewrite Hrun; reflexivity|].
  split; [exists tuner; split; assumption|].
  split; [rewrite Hcalls; reflexivity|].
  intros i st. apply count_occ_not_In. intros Hin.
  pose proof (calls_of_are_method_calls i st) as Hall.
  rewrite forallb_forall in Hall. specialize (Hall _ Hin). discriminate.
Qed.

(** C2, amended: after the cells have run, the name TrainableForPBT is
    bound to the class of cell 31, a subclass of tune.Trainable whose body
    defines exactly the five methods setup, step, save_checkpoint,
    load_checkpoint and reset_config: five, not four.  They are the five
    callbacks modelled here. *)
Theorem TrainableForPBT_defines_five_methods (en : Env) :
  definitions (fst (notebook en)) !! "TrainableForPBT"
    = Some (ClassDef TrainableForPBT) /\
  bases TrainableForPBT = ["tune.Trainable"] /\
  method_names TrainableForPBT
    = {[ "setup"; "step"; "save_checkpoint"; "load_checkpoint";
         "reset_config" ]} /\
  size (method_names TrainableForPBT) = 5%nat /\
  (forall i : invocation, method_name i ∈ method_names TrainableForPBT).
Proof.
  destruct (notebook_runs en) as (en' & tuner & Hrun & _ & Hdef & _).
  rewrite Hrun. simpl.
  split; [exact Hdef|]. split; [reflexivity|].
  assert (Hnames : method_names TrainableForPBT
            = {[ "setup"; "step"; "save_checkpoint"; "load_checkpoint";
                 "reset_config" ]}).
  { unfold method_names. simpl. set_solver. }
  split; [exact Hnames|].
  split.
  - vm_compute. reflexivity.
  - intros i. rewrite Hnames. destruct i; simpl; set_solver.
Qed.

End ScriptProperties.

End Properties.

(** * The code run on the small instance *)

Section Runs.

Import Toy.

(** The first step fits from scratch, the fourth continues from the model. *)
Example first_step :
  step (state_of Toy.fresh)
  = (mkState (@mkTrainable Toy.libs [("num_leaves", PInt 31)] [1; 2; 3; 4; 5]
                [2; 4; 6; 8; 10] 1%nat (PInt 1) (PFloat 1))
             (mkEnv ∅ (can_write Toy.disk) ∅
                    [CallModelFit false; CallCrossValScore]),
     Ok [("r2_score", PFloat 1)]).
Proof. reflexivity. Qed.

Example fourth_step :
  self (fst (step (state_of Toy.trained)))
  = @mkTrainable Toy.libs [("num_leaves", PInt 31)] [1; 2; 3; 4; 5] [2; 4; 6; 8; 10]
      4%nat (PInt 4) (PFloat 4).
Proof. reflexivity. Qed.

(** A step on four rows: the fit returns, the cross-validation with its
    five folds raises; the counter and the model are already replaced, the
    score is the old one. *)
Example step_on_four_rows :
  let '(st, r) := step (state_of Toy.small) in
  (self st, r)
  = (@mkTrainable Toy.libs [("num_leaves", PInt 31)] [1; 2; 3; 4] [2; 4; 6; 8]
       1%nat (PInt 1) PNone,
     Raise ValueError).
Proof. reflexivity. Qed.

(** A configuration with the key self: the constructor raises.
    [reset_config] has then replaced the configuration, the counter and
    the score and kept the model; [setup] has replaced the configuration
    and the data only. *)
Example reset_config_on_keyword_self :
  let '(st, r) := reset_config [("self", PInt 1)] (state_of Toy.trained) in
  (self st, r)
  = (@mkTrainable Toy.libs [("self", PInt 1)] [1; 2; 3; 4; 5]
       [2; 4; 6; 8; 10] 3%nat (PInt 0) PNone,
     Raise TypeError).
Proof. reflexivity. Qed.

Example setup_on_keyword_self :
  let '(st, r) := setup (L := Toy.libs) [("self", PInt 1)] [7] [8]
                    (state_of Toy.trained) in
  (self st, r)
  = (@mkTrainable Toy.libs [("self", PInt 1)] [7] [8] 3%nat (PInt 3)
       (PFloat 3),
     Raise TypeError).
Proof. reflexivity. Qed.

(** A step on a counter that is no number raises at the increment. *)
Example step_on_none :
  step (state_of (set_current_iteration PNone Toy.trained))
  = (state_of (set_current_iteration PNone Toy.trained), Raise TypeError).
Proof. reflexivity. Qed.

(** A checkpoint on disk. *)
Example saved_files :
  map_to_list (files (env (fst (save_checkpoint "/tmp/ckpt"
                                  (state_of Toy.trained)))))
  = [("/tmp/ckpt/checkpoint",
      "{" +:+ Toy.quote +:+ "current_score" +:+ Toy.quote +:+ ": 3.0, "
          +:+ Toy.quote +:+ "current_step" +:+ Toy.quote +:+ ": 3}");
     ("/tmp/ckpt/model.joblib", "rounds=3")].
Proof. vm_compute. reflexivity. Qed.

(** Loading from a directory without a checkpoint raises and changes
    nothing in the instance; with a checkpoint but no model file, the score
    and the counter are already replaced when it raises. *)
Example load_from_empty_directory :
  load_checkpoint "/tmp/ckpt" (state_of Toy.trained)
  = (mkState Toy.trained
       (mkEnv ∅ (can_write Toy.disk) ∅
              [CallOpen "/tmp/ckpt/checkpoint" ReadMode]),
     Raise (OSError "/tmp/ckpt/checkpoint")).
Proof. reflexivity. Qed.

Example load_without_model_file :
  let en := store "/tmp/ckpt/checkpoint"
                  (Toy.dumps (checkpoint_state Toy.fresh)) Toy.disk in
  let '(st, r) := load_checkpoint "/tmp/ckpt" (mkState Toy.trained en) in
  (self st, r)
  = (@mkTrainable Toy.libs [("num_leaves", PInt 31)] [1; 2; 3; 4; 5]
       [2; 4; 6; 8; 10] 3%nat (PInt 0) PNone,
     Raise (OSError "/tmp/ckpt/model.joblib")).
Proof. reflexivity. Qed.

End Runs.

(** ** Witnesses and counterexamples *)

(** The step theorem at the instance trained for three iterations. *)
Lemma step_increments_and_reports_witness :
  current_iteration Toy.trained = PInt 3 /\
  current_iteration (self (fst (step (Toy.state_of Toy.trained)))) = PInt 4 /\
  model (self (fst (step (Toy.state_of Toy.trained)))) = 4%nat /\
  snd (step (Toy.state_of Toy.trained)) = Ok [("r2_score", PFloat 4)].
Proof.
  split; [reflexivity|].
  destruct (step_increments_and_reports (L := Toy.libs)
              (Toy.state_of Toy.trained) 3 eq_refl)
    as (Hit & _ & _ & Hmodel & Hreturns).
  destruct (Hreturns 4 eq_refl eq_refl) as (Hdict & _).
  split; [exact Hit|]. split; [exact Hmodel | exact Hdict].
Defined.

(** C6 as stated fails: on an instance whose counter is None, as a
    checkpoint with a null "current_step" leaves it, [step] raises at the
    increment: the counter is not incremented and no dict is returned. *)
Lemma step_on_none_counter_returns_nothing :
  ~ (exists (n : Z) (results_dict : dict Z),
       current_iteration
         (self (fst (step (Toy.state_of
                            (set_current_iteration PNone Toy.trained)))))
         = PInt n /\
       snd (step (Toy.state_of (set_current_iteration PNone Toy.trained)))
         = Ok results_dict).
Proof. intros (n & results_dict & Hn & _). discriminate Hn. Qed.

(** The round trip at the same instance, in a writable directory. *)
Lemma save_then_load_restores_witness :
  can_write Toy.disk (path_join "/tmp/ckpt" "checkpoint") = true /\
  can_write Toy.disk (path_join "/tmp/ckpt" "model.joblib") = true /\
  json_round_trips (checkpoint_state Toy.trained) /\
  joblib_round_trips (model Toy.trained) /\
  exists en1 st3,
    save_checkpoint "/tmp/ckpt" (mkState Toy.trained Toy.disk)
      = (mkState Toy.trained en1, Ok "/tmp/ckpt") /\
    load_checkpoint "/tmp/ckpt" (mkState Toy.fresh en1) = (st3, Ok tt) /\
    current_step_score (self st3) = PFloat 3 /\
    current_iteration (self st3) = PInt 3 /\
    model (self st3) = 3%nat.
Proof.
  assert (H1 : can_write Toy.disk (path_join "/tmp/ckpt" "checkpoint") = true)
    by reflexivity.
  assert (H2 : can_write Toy.disk (path_join "/tmp/ckpt" "model.joblib") = true)
    by reflexivity.
  assert (H3 : json_round_trips (L := Toy.libs) (checkpoint_state Toy.trained))
    by (vm_compute; reflexivity).
  assert (H4 : joblib_round_trips (L := Toy.libs) (model Toy.trained))
    by (vm_compute; reflexivity).
  repeat (split; [assumption|]).
  destruct (save_then_load_restores (L := Toy.libs) Toy.trained "/tmp/ckpt"
              Toy.disk H1 H2 H3 H4) as (en1 & Hsave & Hload).
  destruct (Hload Toy.fresh en1 eq_refl eq_refl) as (st3 & Hst3 & Hfields).
  exists en1, st3. split; [exact Hsave|]. split; [exact Hst3|exact Hfields].
Defined.

(** C2 as stated fails: the five names are five. *)
Lemma TrainableForPBT_has_not_four_methods :
  ~ (method_names TrainableForPBT
       = {[ "setup"; "step"; "save_checkpoint"; "load_checkpoint";
            "reset_config" ]} /\
     size (method_names TrainableForPBT) = 4%nat).
Proof. intros [_ H]. vm_compute in H. discriminate. Qed.

(** C3 as stated fails: a call of [reset_config] neither fits the model
    nor touches a file. *)
Lemma reset_config_neither_fits_nor_does_file_io :
  ~ (fits_model (calls_of (L := Toy.libs) (InvResetConfig [])
                          (mkState Toy.trained Toy.disk)) = true /\
     does_file_io (calls_of (L := Toy.libs) (InvResetConfig [])
                            (mkState Toy.trained Toy.disk)) = true).
Proof. intros [H _]. vm_compute in H. discriminate. Qed.

(** * Further properties of the class and of the cells *)

(** ** The fields of an environment after [log], [store] and [define] *)

Lemma env_ext (en1 en2 : Env) :
  files en1 = files en2 -> can_write en1 = can_write en2 ->
  definitions en1 = definitions en2 -> trace en1 = trace en2 ->
  en1 = en2.
Proof. destruct en1, en2. simpl. intros -> -> -> ->. reflexivity. Qed.

Lemma files_log e en : files (log e en) = files en.
Proof. reflexivity. Qed.

Lemma can_write_log e en : can_write (log e en) = can_write en.
Proof. reflexivity. Qed.

Lemma definitions_log e en : definitions (log e en) = definitions en.
Proof. reflexivity. Qed.

Lemma trace_log e en : trace (log e en) = trace en ++ [e].
Proof. reflexivity. Qed.

Lemma files_define k d en : files (define k d en) = files en.
Proof. reflexivity. Qed.

Lemma can_write_define k d en : can_write (define k d en) = can_write en.
Proof. reflexivity. Qed.

Lemma definitions_define k d en :
  definitions (define k d en) = <[k := d]> (definitions en).
Proof. reflexivity. Qed.

Lemma trace_define k d en : trace (define k d en) = trace en.
Proof. reflexivity. Qed.

Create Rewrite HintDb env_fields.
#[global] Hint Rewrite files_log can_write_log definitions_log trace_log
  files_define can_write_define definitions_define trace_define : env_fields.

Section MoreProperties.

Context {L : Libs}.

Local Abbreviation value := (pyval Float).
Local Abbreviation config := (dict Float).

Ltac run :=
  unfold mbind, mret, M_bind, M_ret, assign, attr, in_env, lift_result,
    emit, modify, gets, raise; simpl.

(** ** What a call of each method leaves behind *)

(** Walks the paths of [step_unfold] once the increment is known to
    return, and runs [tac] at the end of each. *)
Ltac step_paths tac :=
  simpl;
  match goal with
  | |- context [model_fit ?m ?x ?y ?init] =>
      destruct (model_fit m x y init) as [m' [[]|e]]; simpl; [|tac];
      destruct (cross_val_score_mean m' x y); simpl; tac
  end.

(** [save_checkpoint] on its three paths: the checkpoint file cannot be
    opened, the model file cannot, both can. *)
Lemma save_checkpoint_run (d : string) (st : State) :
  let p := path_join d "checkpoint" in
  let pm := path_join d "model.joblib" in
  let text := json_dumps (checkpoint_state (self st)) in
  exists en',
    fst (save_checkpoint d st) = mkState (self st) en' /\
    can_write en' = can_write (env st) /\
    definitions en' = definitions (env st) /\
    if can_write (env st) p then
      if can_write (env st) pm then
        snd (save_checkpoint d st) = Ok d /\
        files en' = <[pm := joblib_dumps (model (self st))]>
                      (<[p := text]> (files (env st)))
      else
        snd (save_checkpoint d st) = Raise (OSError pm) /\
        files en' = <[p := text]> (files (env st))
    else
      snd (save_checkpoint d st) = Raise (OSError p) /\
      files en' = files (env st).
Proof.
  unfold save_checkpoint, open_w, file_write, joblib_dump. run.
  destruct (can_write (env st) (path_join d "checkpoint")); simpl.
  - rewrite lookup_insert_eq. simpl.
    destruct (can_write (env st) (path_join d "model.joblib")); simpl;
      eexists; (split; [reflexivity|]); simpl;
      rewrite insert_insert_eq; auto.
  - eexists. split; [reflexivity|]. simpl. auto.
Qed.

(** [load_checkpoint] when both files hold what the two libraries can read
    and the JSON value has the two keys. *)
Lemma load_checkpoint_run (d : string) (st : State)
    (text bytes : string) (state score it : value) (m : Model) :
  files (env st) !! path_join d "checkpoint" = Some text ->
  json_loads text = Some state ->
  py_getitem state "current_score" = Ok score ->
  py_getitem state "current_step" = Ok it ->
  files (env st) !! path_join d "model.joblib" = Some bytes ->
  joblib_loads bytes = Some m ->
  load_checkpoint d st =
    (mkState (mkTrainable (current_config (self st)) (x_train (self st))
                          (y_train (self st)) m it score)
             (log (CallJoblibLoad (path_join d "model.joblib"))
                (log (CallFileRead (path_join d "checkpoint"))
                   (log (CallOpen (path_join d "checkpoint") ReadMode)
                        (env st)))),
     Ok tt).
Proof.
  intros Htext Hjson Hscore Hit Hbytes Hm.
  unfold load_checkpoint, open_r, file_read, joblib_load. run.
  rewrite Htext. simpl. rewrite Htext. simpl. rewrite Hjson. simpl.
  rewrite Hscore. simpl. rewrite Hit. simpl. rewrite Hbytes. simpl.
  rewrite Hm. reflexivity.
Qed.

(** Only [save_checkpoint] writes files. *)
Lemma invoke_keeps_files (i : invocation) (st : State) :
  is_save_call i = false ->
  files (env (invoke i st)) = files (env st).
Proof.
  destruct i as [cfg x y| |d|d|cfg]; simpl; intros Hi; try discriminate.
  - unfold setup. run. destruct (LGBMRegressor cfg); reflexivity.
  - rewrite step_unfold.
    destruct (py_iadd_int (current_iteration (self st)) 1) as [it|]; simpl;
      [|reflexivity].
    step_paths ltac:(idtac; reflexivity).
  - unfold load_checkpoint, open_r, file_read, joblib_load. run.
    destruct (files (env st) !! path_join d "checkpoint")
      as [text|] eqn:Htext; simpl; [|reflexivity].
    rewrite ?Htext. simpl.
    destruct (json_loads text) as [state|]; simpl; [|reflexivity].
    destruct (py_getitem state "current_score") as [score|]; simpl;
      [|reflexivity].
    destruct (py_getitem state "current_step") as [it|]; simpl;
      [|reflexivity].
    destruct (files (env st) !! path_join d "model.joblib")
      as [bytes|]; simpl; [|reflexivity].
    destruct (joblib_loads bytes) as [m|]; reflexivity.
  - unfold reset_config. run. destruct (LGBMRegressor cfg); reflexivity.
Qed.

Lemma invoke_all_keeps_files (calls : list invocation) (st : State) :
  forallb (fun i => negb (is_save_call i)) calls = true ->
  files (env (invoke_all calls st)) = files (env st).
Proof.
  revert st. induction calls as [|i calls IH]; intros st Hcalls.
  - reflexivity.
  - simpl in Hcalls. apply andb_true_iff in Hcalls as [Hi Hrest].
    apply negb_true_iff in Hi.
    unfold invoke_all in *. simpl. rewrite (IH _ Hrest).
    apply invoke_keeps_files. exact Hi.
Qed.

(** ** setup, reset_config and step *)


(** X2: when [current_iteration] is no number (None, a str, a list, a
    dict), [step] raises TypeError at the increment and changes nothing:
    not the instance, not the files, and it makes no library call. *)
Theorem step_raises_on_non_number (st : State) :
  is_number (current_iteration (self st)) = false ->
  step st = (st, Raise TypeError) /\ calls_of InvStep st = [].
Proof.
  intros Hnum. unfold calls_of, invoke, step. run.
  destruct (current_iteration (self st)); try discriminate; simpl;
    (split; [reflexivity | apply drop_all]).
Qed.

(** X3: [step] never changes the hyperparameters or the training data of
    the instance, and never touches a file, whether it returns or raises. *)
Theorem step_frame (st : State) :
  let st' := fst (step st) in
  current_config (self st') = current_config (self st) /\
  x_train (self st') = x_train (self st) /\
  y_train (self st') = y_train (self st) /\
  files (env st') = files (env st).
Proof.
  cbv zeta. rewrite step_unfold.
  destruct (py_iadd_int (current_iteration (self st)) 1) as [it|]; simpl;
    [|repeat split; reflexivity].
  step_paths ltac:(idtac; repeat split; reflexivity).
Qed.

(** X4: the counter counts the steps.  From an instance whose counter is
    the int [n], after any sequence of [step] and [save_checkpoint] calls
    (saves that fail included) the counter is [n] plus the number of
    steps in the sequence. *)
Theorem counter_counts_steps (calls : list invocation) (st : State) (n : Z) :
  forallb (fun i => is_step_call i || is_save_call i) calls = true ->
  current_iteration (self st) = PInt n ->
  current_iteration (self (invoke_all calls st))
    = PInt (n + Z.of_nat (length (List.filter is_step_call calls))).
Proof.
  revert st n. induction calls as [|i calls IH]; intros st n Hcalls Hn.
  - simpl. rewrite Z.add_0_r. exact Hn.
  - simpl in Hcalls. apply andb_true_iff in Hcalls as [Hi Hrest].
    unfold invoke_all in *. simpl fold_left.
    destruct i as [cfg x y| |d|d|cfg]; try discriminate; simpl.
    + rewrite (IH (fst (step st)) (n + 1) Hrest).
      * f_equal. lia.
      * apply step_counter_after. exact Hn.
    + destruct (save_checkpoint_run d st) as (en' & Hst & _).
      rewrite (IH _ n Hrest); [reflexivity|].
      rewrite Hst. exact Hn.
Qed.

(** X5: after [reset_config(new_config)], returning or raising, the next
    [step] leaves the counter at 1 and its first library call is a fit
    without [init_model].  The estimator that is fit is the new
    LGBMRegressor of the new configuration when the constructor returned,
    and the old model when it raised; the model of the instance is then
    what that fit left, and [current_config] is the new configuration. *)
Theorem step_after_reset_config (new_config : config) (st : State) :
  let st1 := fst (reset_config new_config st) in
  let st2 := fst (step st1) in
  let m0 := match LGBMRegressor new_config with
            | Ok m => m
            | Raise _ => model (self st)
            end in
  current_iteration (self st2) = PInt 1 /\
  current_config (self st2) = new_config /\
  head (calls_of InvStep st1) = Some (CallModelFit false) /\
  model (self st2)
    = fst (model_fit m0 (x_train (self st)) (y_train (self st)) None).
Proof.
  cbv zeta. rewrite calls_of_step, step_unfold.
  unfold reset_config. run.
  destruct (LGBMRegressor new_config) as [m|e0]; simpl;
    step_paths ltac:(idtac; repeat split; reflexivity).
Qed.

(** ** save_checkpoint *)

(** X6: when both files of the directory can be opened for writing,
    [save_checkpoint] returns its argument; afterwards the file
    [checkpoint] holds exactly the JSON text of the score and the counter
    and the file [model.joblib] exactly the dump of the model, whatever
    the two files held before. *)
Theorem save_checkpoint_writes_both_files (d : string) (st : State) :
  can_write (env st) (path_join d "checkpoint") = true ->
  can_write (env st) (path_join d "model.joblib") = true ->
  let st' := fst (save_checkpoint d st) in
  snd (save_checkpoint d st) = Ok d /\
  files (env st') !! path_join d "checkpoint"
    = Some (json_dumps (PDict [("current_score", current_step_score (self st));
                               ("current_step", current_iteration (self st))]))
  /\
  files (env st') !! path_join d "model.joblib"
    = Some (joblib_dumps (model (self st))).
Proof.
  intros Hw1 Hw2. simpl.
  destruct (save_checkpoint_run d st) as (en' & Hst & _ & _ & Hcases).
  simpl in Hcases. rewrite Hw1, Hw2 in Hcases. destruct Hcases as [Hr Hf].
  rewrite Hst. simpl. rewrite Hf. split; [exact Hr|]. split.
  - rewrite lookup_insert_ne, lookup_insert_eq; [reflexivity|].
    intros Heq. exact (checkpoint_paths_differ d (eq_sym Heq)).
  - apply lookup_insert_eq.
Qed.

(** X7: [save_checkpoint] changes no file but the two of its directory:
    every other path holds afterwards what it held before, whether the
    call returns or raises. *)
Theorem save_checkpoint_touches_two_files (d : string) (st : State)
    (path : string) :
  path <> path_join d "checkpoint" ->
  path <> path_join d "model.joblib" ->
  files (env (fst (save_checkpoint d st))) !! path = files (env st) !! path.
Proof.
  intros Hp Hpm.
  destruct (save_checkpoint_run d st) as (en' & Hst & _ & _ & Hcases).
  simpl in Hcases. rewrite Hst. simpl.
  destruct (can_write (env st) (path_join d "checkpoint"));
    [destruct (can_write (env st) (path_join d "model.joblib"))|];
    destruct Hcases as [_ ->].
  - rewrite !lookup_insert_ne by congruence. reflexivity.
  - rewrite lookup_insert_ne by congruence. reflexivity.
  - reflexivity.
Qed.

(** X8: [save_checkpoint] never changes the instance: every attribute is
    afterwards what it was, whether the call returns or raises. *)
Theorem save_checkpoint_keeps_instance (d : string) (st : State) :
  self (fst (save_checkpoint d st)) = self st.
Proof.
  destruct (save_checkpoint_run d st) as (en' & Hst & _).
  rewrite Hst. reflexivity.
Qed.

(** X9: when the file [checkpoint] cannot be opened for writing (no such
    directory, no permission), [save_checkpoint] raises OSError for that
    path; the failed [open] is its only call, no file is changed and the
    model is never dumped. *)
Theorem save_checkpoint_unwritable_checkpoint_file (d : string) (st : State) :
  can_write (env st) (path_join d "checkpoint") = false ->
  snd (save_checkpoint d st) = Raise (OSError (path_join d "checkpoint")) /\
  files (env (fst (save_checkpoint d st))) = files (env st) /\
  calls_of (InvSaveCheckpoint d) st
    = [CallOpen (path_join d "checkpoint") WriteMode].
Proof.
  intros Hw.
  unfold calls_of, invoke, save_checkpoint, open_w, file_write, joblib_dump.
  run. rewrite Hw. simpl.
  split; [reflexivity|]. split; [reflexivity|]. apply drop_app_length.
Qed.

(** X10: a save can tear.  When the file [checkpoint] can be written but
    [model.joblib] cannot, [save_checkpoint] raises OSError for the model
    path after the checkpoint file was already replaced: the directory
    then holds the new score and counter beside whatever model file was
    there before. *)
Theorem save_checkpoint_torn (d : string) (st : State) :
  can_write (env st) (path_join d "checkpoint") = true ->
  can_write (env st) (path_join d "model.joblib") = false ->
  let st' := fst (save_checkpoint d st) in
  snd (save_checkpoint d st) = Raise (OSError (path_join d "model.joblib")) /\
  files (env st') !! path_join d "checkpoint"
    = Some (json_dumps (checkpoint_state (self st))) /\
  files (env st') !! path_join d "model.joblib"
    = files (env st) !! path_join d "model.joblib".
Proof.
  intros Hw1 Hw2. simpl.
  destruct (save_checkpoint_run d st) as (en' & Hst & _ & _ & Hcases).
  simpl in Hcases. rewrite Hw1, Hw2 in Hcases. destruct Hcases as [Hr Hf].
  rewrite Hst. simpl. rewrite Hf. split; [exact Hr|]. split.
  - apply lookup_insert_eq.
  - apply lookup_insert_ne. apply checkpoint_paths_differ.
Qed.

(** ** load_checkpoint *)

(** X11: from a directory without a file [checkpoint], [load_checkpoint]
    raises OSError for that path and leaves the instance as it was; the
    failed [open] is its only call. *)
Theorem load_checkpoint_missing_checkpoint_file (d : string) (st : State) :
  files (env st) !! path_join d "checkpoint" = None ->
  load_checkpoint d st =
    (mkState (self st)
             (log (CallOpen (path_join d "checkpoint") ReadMode) (env st)),
     Raise (OSError (path_join d "checkpoint"))).
Proof.
  intros Hnone. unfold load_checkpoint, open_r. run. rewrite Hnone.
  reflexivity.
Qed.

(** X12: when the file [checkpoint] is no JSON text, [load_checkpoint]
    raises JSONDecodeError; when it is JSON but indexing the value with
    "current_score" raises (TypeError for a value that is no object,
    KeyError for an object without the key), that exception is raised.
    In both cases the instance is left as it was and the model file is
    not read. *)
Theorem load_checkpoint_bad_checkpoint_file (d : string) (st : State)
    (text : string) (e : exn) :
  files (env st) !! path_join d "checkpoint" = Some text ->
  match json_loads text with
  | None => e = JSONDecodeError
  | Some state => py_getitem state "current_score" = Raise e
  end ->
  snd (load_checkpoint d st) = Raise e /\
  self (fst (load_checkpoint d st)) = self st /\
  calls_of (InvLoadCheckpoint d) st
    = [CallOpen (path_join d "checkpoint") ReadMode;
       CallFileRead (path_join d "checkpoint")].
Proof.
  intros Htext Hbad.
  unfold calls_of, invoke, load_checkpoint, open_r, file_read. run.
  rewrite Htext. simpl. rewrite Htext. simpl.
  destruct (json_loads text) as [state|]; simpl.
  - rewrite Hbad. simpl. split; [reflexivity|]. split; [reflexivity|].
    rewrite <- app_assoc. apply drop_app_length.
  - subst e. split; [reflexivity|]. split; [reflexivity|].
    rewrite <- app_assoc. apply drop_app_length.
Qed.

(** X13: [load_checkpoint] is not atomic.  When the JSON object has the
    key "current_score" but indexing it with "current_step" raises, the
    exception leaves the instance with the score of the checkpoint and
    with the counter and the model it had before. *)
Theorem load_checkpoint_missing_counter_key (d : string) (st : State)
    (text : string) (state score : value) (e : exn) :
  files (env st) !! path_join d "checkpoint" = Some text ->
  json_loads text = Some state ->
  py_getitem state "current_score" = Ok score ->
  py_getitem state "current_step" = Raise e ->
  snd (load_checkpoint d st) = Raise e /\
  self (fst (load_checkpoint d st)) = set_current_step_score score (self st).
Proof.
  intros Htext Hjson Hscore Hit.
  unfold load_checkpoint, open_r, file_read. run.
  rewrite Htext. simpl. rewrite Htext. simpl. rewrite Hjson. simpl.
  rewrite Hscore. simpl. rewrite Hit. simpl. split; reflexivity.
Qed.

(** X14: when the checkpoint file is read but the model file is missing
    (OSError) or is no pickle (UnpicklingError), [load_checkpoint] raises
    after the score and the counter were already replaced: the instance
    then has the score and counter of the checkpoint and its old model. *)
Theorem load_checkpoint_bad_model_file (d : string) (st : State)
    (text : string) (state score it : value) (e : exn) :
  files (env st) !! path_join d "checkpoint" = Some text ->
  json_loads text = Some state ->
  py_getitem state "current_score" = Ok score ->
  py_getitem state "current_step" = Ok it ->
  match files (env st) !! path_join d "model.joblib" with
  | None => e = OSError (path_join d "model.joblib")
  | Some bytes => joblib_loads bytes = None /\ e = UnpicklingError
  end ->
  snd (load_checkpoint d st) = Raise e /\
  self (fst (load_checkpoint d st))
    = set_current_iteration it (set_current_step_score score (self st)).
Proof.
  intros Htext Hjson Hscore Hit Hmodel.
  unfold load_checkpoint, open_r, file_read, joblib_load. run.
  rewrite Htext. simpl. rewrite Htext. simpl. rewrite Hjson. simpl.
  rewrite Hscore. simpl. rewrite Hit. simpl.
  destruct (files (env st) !! path_join d "model.joblib") as [bytes|]; simpl.
  - destruct Hmodel as [Hbytes ->]. rewrite Hbytes. split; reflexivity.
  - subst e. split; reflexivity.
Qed.

(** X15: [load_checkpoint] takes the values as they are.  When the two
    files can be read, and the JSON value can be indexed with the two keys,
    the call returns and the score, the counter and the model of the
    instance are the values found, of whatever type; other keys of the
    object play no part.  Its calls are one [open], one [read] and one
    joblib [load]. *)
Theorem load_checkpoint_takes_values_as_they_are (d : string) (st : State)
    (text bytes : string) (state score it : value) (m : Model) :
  files (env st) !! path_join d "checkpoint" = Some text ->
  json_loads text = Some state ->
  py_getitem state "current_score" = Ok score ->
  py_getitem state "current_step" = Ok it ->
  files (env st) !! path_join d "model.joblib" = Some bytes ->
  joblib_loads bytes = Some m ->
  let st' := fst (load_checkpoint d st) in
  snd (load_checkpoint d st) = Ok tt /\
  current_step_score (self st') = score /\
  current_iteration (self st') = it /\
  model (self st') = m /\
  calls_of (InvLoadCheckpoint d) st
    = [CallOpen (path_join d "checkpoint") ReadMode;
       CallFileRead (path_join d "checkpoint");
       CallJoblibLoad (path_join d "model.joblib")].
Proof.
  intros Htext Hjson Hscore Hit Hbytes Hm. simpl.
  unfold calls_of, invoke.
  rewrite (load_checkpoint_run d st text bytes state score it m) by assumption.
  simpl. repeat (split; [reflexivity|]).
  rewrite <- !app_assoc. apply drop_app_length.
Qed.

(** X16: nothing checks the counter that is loaded.  A checkpoint whose
    "current_step" is no number loads without an exception, and the next
    [step] then raises TypeError. *)
Theorem load_foreign_counter_then_step (d : string) (st : State)
    (text bytes : string) (state score it : value) (m : Model) :
  files (env st) !! path_join d "checkpoint" = Some text ->
  json_loads text = Some state ->
  py_getitem state "current_score" = Ok score ->
  py_getitem state "current_step" = Ok it ->
  files (env st) !! path_join d "model.joblib" = Some bytes ->
  joblib_loads bytes = Some m ->
  is_number it = false ->
  snd (load_checkpoint d st) = Ok tt /\
  snd (step (fst (load_checkpoint d st))) = Raise TypeError.
Proof.
  intros Htext Hjson Hscore Hit Hbytes Hm Hnum.
  rewrite (load_checkpoint_run d st text bytes state score it m) by assumption.
  simpl. split; [reflexivity|].
  rewrite step_unfold. simpl. destruct it; try discriminate; reflexivity.
Qed.

(** X17: [load_checkpoint] reads the two files of its directory and
    nothing else of the file system: on two disks that agree on these two
    paths it leaves the same instance and returns or raises alike. *)
Theorem load_checkpoint_reads_two_files (d : string) (t : Trainable)
    (en1 en2 : Env) :
  files en1 !! path_join d "checkpoint"
    = files en2 !! path_join d "checkpoint" ->
  files en1 !! path_join d "model.joblib"
    = files en2 !! path_join d "model.joblib" ->
  self (fst (load_checkpoint d (mkState t en1)))
    = self (fst (load_checkpoint d (mkState t en2))) /\
  snd (load_checkpoint d (mkState t en1))
    = snd (load_checkpoint d (mkState t en2)).
Proof.
  intros Hp Hpm.
  destruct (files en1 !! path_join d "checkpoint") as [text|] eqn:Hp1;
    symmetry in Hp;
    destruct (files en1 !! path_join d "model.joblib") as [bytes|] eqn:Hpm1;
    symmetry in Hpm;
    unfold load_checkpoint, open_r, file_read, joblib_load; run;
    rewrite ?Hp1, ?Hp; simpl; rewrite ?Hp1, ?Hp; simpl;
    try (split; reflexivity);
    (destruct (json_loads text) as [state|]; simpl; [|split; reflexivity]);
    (destruct (py_getitem state "current_score") as [score|]; simpl;
       [|split; reflexivity]);
    (destruct (py_getitem state "current_step") as [it|]; simpl;
       [|split; reflexivity]);
    rewrite ?Hpm1, ?Hpm; simpl; try (split; reflexivity).
  destruct (joblib_loads bytes) as [m|]; simpl; split; reflexivity.
Qed.

(** ** A checkpoint across other calls *)

(** X18: a checkpoint outlives whatever happens to the instance.  After
    a [save_checkpoint] into a writable directory, any sequence of calls
    that contains no further save ([setup], [step], [reset_config],
    [load_checkpoint], failing or not) leaves the checkpoint readable: a
    [load_checkpoint] of the directory then returns, restores the score,
    the counter and the model of the time of the save, and keeps the
    hyperparameters the instance has by then.  json and joblib are
    assumed to read back what they wrote for the saved values. *)
Theorem checkpoint_survives_calls (d : string) (st : State)
    (calls : list invocation) :
  can_write (env st) (path_join d "checkpoint") = true ->
  can_write (env st) (path_join d "model.joblib") = true ->
  json_round_trips (checkpoint_state (self st)) ->
  joblib_round_trips (model (self st)) ->
  forallb (fun i => negb (is_save_call i)) calls = true ->
  let later := invoke_all calls (fst (save_checkpoint d st)) in
  let st' := fst (load_checkpoint d later) in
  snd (load_checkpoint d later) = Ok tt /\
  current_step_score (self st') = current_step_score (self st) /\
  current_iteration (self st') = current_iteration (self st) /\
  model (self st') = model (self st) /\
  current_config (self st') = current_config (self later).
Proof.
  intros Hw1 Hw2 Hjson Hjoblib Hcalls. simpl.
  destruct (save_checkpoint_run d st) as (en' & Hst & _ & _ & Hcases).
  simpl in Hcases. rewrite Hw1, Hw2 in Hcases. destruct Hcases as [_ Hf].
  pose proof (invoke_all_keeps_files calls (fst (save_checkpoint d st)) Hcalls)
    as Hkept.
  rewrite Hst in Hkept at 2. simpl in Hkept. rewrite Hf in Hkept.
  rewrite (load_checkpoint_run d _
             (json_dumps (checkpoint_state (self st)))
             (joblib_dumps (model (self st)))
             (checkpoint_state (self st))
             (current_step_score (self st)) (current_iteration (self st))
             (model (self st))).
  - simpl. repeat split; reflexivity.
  - rewrite Hkept. rewrite lookup_insert_ne, lookup_insert_eq; [reflexivity|].
    intros Heq. exact (checkpoint_paths_differ d (eq_sym Heq)).
  - exact Hjson.
  - reflexivity.
  - reflexivity.
  - rewrite Hkept. apply lookup_insert_eq.
  - exact Hjoblib.
Qed.

(** ** The top-level cells *)

Section MoreScriptProperties.

Context {R : Ray}.

(** The cells run from [en]: the result, the log, and the bindings of
    the [class] and [def] statements.  The files are those of [Env], which
    leaves out what Ray writes during the run. *)
Lemma notebook_run (en : Env) :
  notebook en =
    (mkEnv (files en) (can_write en)
       (<["TrainableForPBT" := ClassDef TrainableForPBT]>
        (<["reset_config" := FunctionDef ["self"; "new_config"]]>
         (<["load_checkpoint" := FunctionDef ["self"; "tmp_checkpoint_dir"]]>
          (<["save_checkpoint" := FunctionDef ["self"; "tmp_checkpoint_dir"]]>
           (<["step" := FunctionDef ["self"]]>
            (<["setup" :=
                 FunctionDef ["self"; "config"; "x_train"; "y_train"]]>
             (<["TrainableForPBT" := ClassDef TrainableForPBT_stub]>
              (definitions en))))))))
       (trace en ++ calls_before_fit ++ [CallTunerFit]
          ++ calls_after_fit (tuner_fit notebook_tuner)),
     Ok tt).
Proof.
  unfold notebook, notebook_tuner, global_class, getitem.
  unfold mbind, mret, M_bind, M_ret, emit, modify, gets, raise. simpl.
  destruct load_boston as [X y].
  destruct (train_test_split X y) as [[[x_tr x_te] y_tr] y_te]. simpl.
  rewrite lookup_insert_eq. simpl.
  apply (f_equal2 pair); [|reflexivity].
  apply env_ext; autorewrite with env_fields; cbn [files can_write definitions trace];
    try reflexivity.
  rewrite <- !app_assoc. reflexivity.
Qed.

(** X19: the tuner that is fit is the one the cells configure.  The one
    [tuner.fit()] runs on a tuner whose trainable is the finished class of
    cell 31 (not the stub of cell 15) with the training part of the split;
    PBT mutates exactly the search space the tuner samples from;
    checkpoints are taken every [perturbation_interval] iterations and
    scored by the metric and the mode of the TuneConfig; actors are
    reused. *)
Theorem notebook_fits_notebook_tuner (en : Env) :
  let T := notebook_tuner in
  script_calls en = calls_before_fit ++ [CallTunerFit]
                      ++ calls_after_fit (tuner_fit T) /\
  trainable_class (trainable T) = TrainableForPBT /\
  (with_x_train (trainable T), with_y_train (trainable T))
    = (let '(x_tr, _, y_tr, _) :=
         train_test_split (fst load_boston) (snd load_boston) in
       (x_tr, y_tr)) /\
  hyperparam_mutations (scheduler (tune_config T)) = param_space T /\
  checkpoint_frequency (checkpoint_config (run_config T))
    = perturbation_interval (scheduler (tune_config T)) /\
  checkpoint_score_attribute (checkpoint_config (run_config T))
    = metric (tune_config T) /\
  checkpoint_score_order (checkpoint_config (run_config T))
    = mode (tune_config T) /\
  reuse_actors (tune_config T) = true.
Proof.
  simpl. split.
  - unfold script_calls. rewrite notebook_run. simpl. apply drop_app_length.
  - unfold notebook_tuner.
    destruct load_boston as [X y]. simpl.
    destruct (train_test_split X y) as [[[x_tr x_te] y_tr] y_te].
    repeat split; reflexivity.
Qed.

(** X20: the metric the tuner maximises and scores checkpoints by is a
    key of what [step] reports.  From a counter that is an int, when the
    fit and the cross-validation return, [step] returns a dict in which the
    metric of the TuneConfig, and the [checkpoint_score_attribute] of the
    CheckpointConfig, are bound to the mean score of the cross-validation
    of the fitted model. *)
Theorem step_reports_the_tuned_metric (st : State) (n : Z) (mean : Float) :
  current_iteration (self st) = PInt n ->
  let m := model (self st) in
  let x := x_train (self st) in
  let y := y_train (self st) in
  let fitted :=
    model_fit m x y (if bool_decide (n + 1 = 1) then None else Some m) in
  snd fitted = Ok tt ->
  cross_val_score_mean (fst fitted) x y = Ok mean ->
  exists results_dict : config,
    snd (step st) = Ok results_dict /\
    dict_get results_dict (metric (tune_config notebook_tuner))
      = Some (PFloat mean) /\
    dict_get results_dict
        (checkpoint_score_attribute
           (checkpoint_config (run_config notebook_tuner)))
      = Some (PFloat mean).
Proof.
  intros Hn. cbv zeta. intros Hfit Hmean.
  rewrite step_unfold, Hn. simpl.
  assert (Hmetric : metric (tune_config notebook_tuner) = "r2_score" /\
                    checkpoint_score_attribute
                      (checkpoint_config (run_config notebook_tuner))
                    = "r2_score").
  { unfold notebook_tuner.
    destruct load_boston as [X Y].
    destruct (train_test_split X Y) as [[[x_tr x_te] y_tr] y_te].
    split; reflexivity. }
  destruct Hmetric as [-> ->].
  case_bool_decide; simpl in *; rewrite Hfit, Hmean; simpl;
    eexists; (split; [reflexivity|]); split; reflexivity.
Qed.

End MoreScriptProperties.

End MoreProperties.

(** ** Witnesses of the further properties *)

Lemma step_raises_on_non_number_witness :
  is_number (current_iteration (set_current_iteration PNone Toy.trained))
    = false /\
  step (Toy.state_of (set_current_iteration PNone Toy.trained))
    = (Toy.state_of (set_current_iteration PNone Toy.trained),
       Raise TypeError).
Proof.
  split; [reflexivity|].
  apply (step_raises_on_non_number (L := Toy.libs)
           (Toy.state_of (set_current_iteration PNone Toy.trained))).
  reflexivity.
Defined.

Lemma counter_counts_steps_witness :
  current_iteration Toy.fresh = PInt 0 /\
  current_iteration
    (self (invoke_all [InvStep; InvSaveCheckpoint "/tmp/ckpt"; InvStep]
                      (Toy.state_of Toy.fresh)))
    = PInt 2.
Proof.
  split; [reflexivity|].
  apply (counter_counts_steps (L := Toy.libs)
           [InvStep; InvSaveCheckpoint "/tmp/ckpt"; InvStep]
           (Toy.state_of Toy.fresh) 0); reflexivity.
Defined.

Lemma save_checkpoint_writes_both_files_witness :
  can_write Toy.disk (path_join "/tmp/ckpt" "checkpoint") = true /\
  can_write Toy.disk (path_join "/tmp/ckpt" "model.joblib") = true /\
  files (env (fst (save_checkpoint "/tmp/ckpt" (Toy.state_of Toy.trained))))
    !! path_join "/tmp/ckpt" "model.joblib"
    = Some (Toy.pickle 3).
Proof.
  split; [reflexivity|]. split; [reflexivity|].
  apply (save_checkpoint_writes_both_files (L := Toy.libs) "/tmp/ckpt"
           (Toy.state_of Toy.trained) eq_refl eq_refl).
Defined.

Lemma save_checkpoint_touches_two_files_witness :
  "/tmp/other" <> path_join "/tmp/ckpt" "checkpoint" /\
  "/tmp/other" <> path_join "/tmp/ckpt" "model.joblib" /\
  files (env (fst (save_checkpoint "/tmp/ckpt" (Toy.state_of Toy.trained))))
    !! "/tmp/other"
    = files Toy.disk !! "/tmp/other".
Proof.
  assert (H1 : "/tmp/other" <> path_join "/tmp/ckpt" "checkpoint")
    by (vm_compute; discriminate).
  assert (H2 : "/tmp/other" <> path_join "/tmp/ckpt" "model.joblib")
    by (vm_compute; discriminate).
  split; [exact H1|]. split; [exact H2|].
  apply (save_checkpoint_touches_two_files (L := Toy.libs) "/tmp/ckpt"
           (Toy.state_of Toy.trained) "/tmp/other" H1 H2).
Defined.

Lemma save_checkpoint_unwritable_checkpoint_file_witness :
  can_write Toy.read_only (path_join "/tmp/ckpt" "checkpoint") = false /\
  snd (save_checkpoint "/tmp/ckpt" (mkState Toy.trained Toy.read_only))
    = Raise (OSError "/tmp/ckpt/checkpoint").
Proof.
  split; [reflexivity|].
  apply (save_checkpoint_unwritable_checkpoint_file (L := Toy.libs)
           "/tmp/ckpt" (mkState Toy.trained Toy.read_only) eq_refl).
Defined.

Lemma save_checkpoint_torn_witness :
  can_write Toy.model_locked (path_join "/tmp/ckpt" "checkpoint") = true /\
  can_write Toy.model_locked (path_join "/tmp/ckpt" "model.joblib") = false /\
  snd (save_checkpoint "/tmp/ckpt" (mkState Toy.trained Toy.model_locked))
    = Raise (OSError "/tmp/ckpt/model.joblib").
Proof.
  split; [reflexivity|]. split; [reflexivity|].
  apply (save_checkpoint_torn (L := Toy.libs) "/tmp/ckpt"
           (mkState Toy.trained Toy.model_locked) eq_refl eq_refl).
Defined.

Lemma load_checkpoint_missing_checkpoint_file_witness :
  files Toy.disk !! path_join "/tmp/ckpt" "checkpoint" = None /\
  snd (load_checkpoint "/tmp/ckpt" (Toy.state_of Toy.trained))
    = Raise (OSError "/tmp/ckpt/checkpoint").
Proof.
  split; [reflexivity|].
  rewrite (load_checkpoint_missing_checkpoint_file (L := Toy.libs) "/tmp/ckpt"
             (Toy.state_of Toy.trained) eq_refl).
  reflexivity.
Defined.

Lemma load_checkpoint_bad_checkpoint_file_witness :
  files (Toy.foreign_disk Toy.a_list) !! path_join "/tmp/ckpt" "checkpoint"
    = Some (Toy.dumps Toy.a_list) /\
  @json_loads Toy.lenient (Toy.dumps Toy.a_list) = Some Toy.a_list /\
  snd (load_checkpoint "/tmp/ckpt"
         (mkState Toy.lenient_trained (Toy.foreign_disk Toy.a_list)))
    = Raise TypeError /\
  self (fst (load_checkpoint "/tmp/ckpt"
               (mkState Toy.lenient_trained (Toy.foreign_disk Toy.a_list))))
    = Toy.lenient_trained.
Proof.
  split; [reflexivity|]. split; [reflexivity|].
  destruct (load_checkpoint_bad_checkpoint_file (L := Toy.lenient) "/tmp/ckpt"
              (mkState Toy.lenient_trained (Toy.foreign_disk Toy.a_list))
              (Toy.dumps Toy.a_list) TypeError eq_refl eq_refl)
    as (Hr & Hself & _).
  split; [exact Hr | exact Hself].
Defined.

Lemma load_checkpoint_missing_counter_key_witness :
  @py_getitem Toy.lenient Toy.without_counter "current_step"
    = Raise (KeyError "current_step") /\
  snd (load_checkpoint "/tmp/ckpt"
         (mkState Toy.lenient_trained
                  (Toy.foreign_disk Toy.without_counter)))
    = Raise (KeyError "current_step") /\
  self (fst (load_checkpoint "/tmp/ckpt"
               (mkState Toy.lenient_trained
                        (Toy.foreign_disk Toy.without_counter))))
    = @set_current_step_score Toy.lenient (PFloat 1) Toy.lenient_trained.
Proof.
  split; [reflexivity|].
  apply (load_checkpoint_missing_counter_key (L := Toy.lenient) "/tmp/ckpt"
           (mkState Toy.lenient_trained
                    (Toy.foreign_disk Toy.without_counter))
           (Toy.dumps Toy.without_counter) Toy.without_counter (PFloat 1)
           (KeyError "current_step") eq_refl eq_refl eq_refl eq_refl).
Defined.

Lemma load_checkpoint_bad_model_file_witness :
  files Toy.no_model_file !! path_join "/tmp/ckpt" "model.joblib" = None /\
  snd (load_checkpoint "/tmp/ckpt" (mkState Toy.trained Toy.no_model_file))
    = Raise (OSError "/tmp/ckpt/model.joblib") /\
  self (fst (load_checkpoint "/tmp/ckpt"
               (mkState Toy.trained Toy.no_model_file)))
    = @set_current_iteration Toy.libs (PInt 0)
        (set_current_step_score PNone Toy.trained).
Proof.
  split; [reflexivity|].
  apply (load_checkpoint_bad_model_file (L := Toy.libs) "/tmp/ckpt"
           (mkState Toy.trained Toy.no_model_file)
           (Toy.dumps (PDict [("current_score", PNone);
                              ("current_step", PInt 0)]))
           (PDict [("current_score", PNone); ("current_step", PInt 0)])
           PNone (PInt 0) (OSError "/tmp/ckpt/model.joblib")
           eq_refl eq_refl eq_refl eq_refl eq_refl).
Defined.

Lemma load_checkpoint_takes_values_as_they_are_witness :
  @json_loads Toy.lenient (Toy.dumps Toy.null_counter)
    = Some Toy.null_counter /\
  @joblib_loads Toy.lenient (Toy.pickle 5) = Some 5%nat /\
  let st' := fst (load_checkpoint "/tmp/ckpt"
                    (mkState Toy.lenient_trained
                             (Toy.foreign_disk Toy.null_counter))) in
  current_step_score (self st') = PFloat 2 /\
  current_iteration (self st') = PNone /\
  model (self st') = 5%nat.
Proof.
  split; [reflexivity|]. split; [reflexivity|].
  destruct (load_checkpoint_takes_values_as_they_are (L := Toy.lenient)
              "/tmp/ckpt"
              (mkState Toy.lenient_trained (Toy.foreign_disk Toy.null_counter))
              (Toy.dumps Toy.null_counter) (Toy.pickle 5) Toy.null_counter
              (PFloat 2) PNone 5%nat
              eq_refl eq_refl eq_refl eq_refl eq_refl eq_refl)
    as (_ & Hs & Hi & Hm & _).
  split; [exact Hs|]. split; [exact Hi | exact Hm].
Defined.

Lemma load_foreign_counter_then_step_witness :
  @is_number Toy.lenient PNone = false /\
  snd (load_checkpoint "/tmp/ckpt"
         (mkState Toy.lenient_trained (Toy.foreign_disk Toy.null_counter)))
    = Ok tt /\
  snd (step (fst (load_checkpoint "/tmp/ckpt"
                    (mkState Toy.lenient_trained
                             (Toy.foreign_disk Toy.null_counter)))))
    = Raise TypeError.
Proof.
  split; [reflexivity|].
  apply (load_foreign_counter_then_step (L := Toy.lenient) "/tmp/ckpt"
           (mkState Toy.lenient_trained (Toy.foreign_disk Toy.null_counter))
           (Toy.dumps Toy.null_counter) (Toy.pickle 5) Toy.null_counter
           (PFloat 2) PNone 5%nat
           eq_refl eq_refl eq_refl eq_refl eq_refl eq_refl eq_refl).
Defined.

Lemma load_checkpoint_reads_two_files_witness :
  files Toy.no_model_file !! path_join "/tmp/ckpt" "checkpoint"
    = files (store "/tmp/other" "x" Toy.no_model_file)
        !! path_join "/tmp/ckpt" "checkpoint" /\
  snd (load_checkpoint "/tmp/ckpt" (mkState Toy.trained Toy.no_model_file))
    = snd (load_checkpoint "/tmp/ckpt"
             (mkState Toy.trained
                      (store "/tmp/other" "x" Toy.no_model_file))).
Proof.
  assert (H1 : files Toy.no_model_file !! path_join "/tmp/ckpt" "checkpoint"
               = files (store "/tmp/other" "x" Toy.no_model_file)
                   !! path_join "/tmp/ckpt" "checkpoint") by reflexivity.
  assert (H2 : files Toy.no_model_file !! path_join "/tmp/ckpt" "model.joblib"
               = files (store "/tmp/other" "x" Toy.no_model_file)
                   !! path_join "/tmp/ckpt" "model.joblib") by reflexivity.
  split; [exact H1|].
  apply (load_checkpoint_reads_two_files (L := Toy.libs) "/tmp/ckpt"
           Toy.trained Toy.no_model_file
           (store "/tmp/other" "x" Toy.no_model_file) H1 H2).
Defined.

Lemma checkpoint_survives_calls_witness :
  json_round_trips (checkpoint_state Toy.trained) /\
  joblib_round_trips (model Toy.trained) /\
  let later := invoke_all [InvStep; InvResetConfig []; InvStep]
                 (fst (save_checkpoint "/tmp/ckpt"
                         (Toy.state_of Toy.trained))) in
  let st' := fst (load_checkpoint "/tmp/ckpt" later) in
  snd (load_checkpoint "/tmp/ckpt" later) = Ok tt /\
  current_iteration (self st') = PInt 3 /\
  model (self st') = 3%nat /\
  current_config (self st') = [].
Proof.
  assert (H3 : json_round_trips (L := Toy.libs) (checkpoint_state Toy.trained))
    by reflexivity.
  assert (H4 : joblib_round_trips (L := Toy.libs) (model Toy.trained))
    by reflexivity.
  split; [exact H3|]. split; [exact H4|].
  destruct (checkpoint_survives_calls (L := Toy.libs) "/tmp/ckpt"
              (Toy.state_of Toy.trained) [InvStep; InvResetConfig []; InvStep]
              eq_refl eq_refl H3 H4 eq_refl)
    as (Hr & _ & Hi & Hm & Hc).
  split; [exact Hr|]. split; [exact Hi|]. split; [exact Hm|].
  rewrite Hc. reflexivity.
Defined.

Lemma step_reports_the_tuned_metric_witness :
  current_iteration Toy.trained = PInt 3 /\
  @model_fit Toy.libs 3%nat [1; 2; 3; 4; 5] [2; 4; 6; 8; 10] (Some 3%nat)
    = (4%nat, Ok tt) /\
  @cross_val_score_mean Toy.libs 4%nat [1; 2; 3; 4; 5] [2; 4; 6; 8; 10]
    = Ok 4 /\
  exists results_dict,
    snd (step (Toy.state_of Toy.trained)) = Ok results_dict /\
    dict_get results_dict "r2_score" = Some (PFloat 4).
Proof.
  split; [reflexivity|]. split; [reflexivity|]. split; [reflexivity|].
  destruct (step_reports_the_tuned_metric (L := Toy.libs) (R := Toy.ray)
              (Toy.state_of Toy.trained) 3 4 eq_refl eq_refl eq_refl)
    as (results_dict & Hstep & Hmetric & _).
  exists results_dict. split; [exact Hstep | exact Hmetric].
Defined.
